(** * update_patrons.py: fetch, classify and emit the patron lists

    A shallow embedding of [src/update_patrons.py].  Python values are
    modelled as follows.

    - [str] is [String.string], one [ascii] per character.
    - [int] is [Z].
    - A raised exception is a value of [exn]; a computation that may raise
      returns a [result].
    - [print] appends a [line] to the standard output, which every
      function returns next to its result.
    - A patron dictionary, which [get_patrons] always builds with the same
      four keys, is the record [patron].
    - The [categories] dictionary keeps its insertion order, so it is an
      association list.
    - The process environment and the output directory are finite maps. *)

From Stdlib Require Import ZArith List String Ascii Bool Lia.
From Stdlib Require Import Sorting.Sorted Sorting.Permutation.
From stdpp Require Import gmap strings.

Import ListNotations.
Local Open Scope string_scope.
Local Open Scope list_scope.
Local Open Scope Z_scope.

(** ** Exceptions and results *)

Inductive exn : Type :=
| ValueError
| TypeError
| OverflowError
| OSError
| UnicodeDecodeError
| Timeout
| ConnectionError
| HTTPError (status_code : Z)
| JSONDecodeError
| KeyError (key : string).

(** The subclasses of [requests.exceptions.RequestException]: what
    [requests.get] raises on a transport failure, what
    [raise_for_status] raises on an error status, and what
    [response.json] raises on a body that is not JSON. *)
Definition is_RequestException (e : exn) : bool :=
  match e with
  | Timeout | ConnectionError | HTTPError _ | JSONDecodeError => true
  | _ => false
  end.

Inductive result (A : Type) : Type :=
| Ok (a : A)
| Raise (e : exn).
Arguments Ok {A} a.
Arguments Raise {A} e.

Definition bind {A B : Type} (r : result A) (k : A -> result B) : result B :=
  match r with
  | Ok a => k a
  | Raise e => Raise e
  end.

Notation "'let*' x ':=' r 'in' k" := (bind r (fun x => k))
  (at level 10, x name, r at level 100, k at level 200).

(** A parser returns [None] where the library raises [ValueError]. *)
Definition opt_bind {A B : Type} (o : option A) (k : A -> option B) : option B :=
  match o with
  | Some a => k a
  | None => None
  end.

Notation "'let?' x ':=' o 'in' k" := (opt_bind o (fun x => k))
  (at level 10, x pattern, o at level 100, k at level 200).

Definition of_result {A : Type} (r : result A) : option A :=
  match r with
  | Ok a => Some a
  | Raise _ => None
  end.

(** ** Strings *)

Module Str.

(** [c in s] for a one-character [c]. *)
Fixpoint contains (c : ascii) (s : string) : bool :=
  match s with
  | EmptyString => false
  | String a r => if Ascii.eqb a c then true else contains c r
  end.

(** [s.replace(c, by)] for a one-character [c]: every occurrence. *)
Fixpoint replace (c : ascii) (by_ : string) (s : string) : string :=
  match s with
  | EmptyString => EmptyString
  | String a r =>
      if Ascii.eqb a c then (by_ ++ replace c by_ r)%string
      else String a (replace c by_ r)
  end.

(** [str.lower] on one character.  The upper-case letters below code
    point 256 are A-Z and, in the Latin-1 block, 192-222 without the
    multiplication sign 215; each is 32 below its lower-case letter. *)
Definition lower_char (a : ascii) : ascii :=
  let n := N_of_ascii a in
  if ((65 <=? n) && (n <=? 90) ||
      (192 <=? n) && (n <=? 222) && negb (n =? 215))%N
  then ascii_of_N (n + 32) else a.

Fixpoint lower (s : string) : string :=
  match s with
  | EmptyString => EmptyString
  | String a r => String (lower_char a) (lower r)
  end.

(** [not s]: the empty string is the only false one. *)
Definition is_empty (s : string) : bool :=
  match s with
  | EmptyString => true
  | _ => false
  end.

Definition digit (a : ascii) : option Z :=
  let n := N_of_ascii a in
  if ((48 <=? n) && (n <=? 57))%N then Some (Z.of_N n - 48) else None.

(** Reads exactly [n] decimal digits from the front of [s]. *)
Fixpoint digits (n : nat) (acc : Z) (s : string) : option (Z * string) :=
  match n with
  | O => Some (acc, s)
  | S n' =>
      match s with
      | EmptyString => None
      | String a r =>
          match digit a with
          | Some d => digits n' (10 * acc + d) r
          | None => None
          end
      end
  end.

(** Expects the character [c] at the front of [s]. *)
Definition expect (c : ascii) (s : string) : option string :=
  match s with
  | String a r => if Ascii.eqb a c then Some r else None
  | EmptyString => None
  end.

Definition digit_char (d : Z) : ascii := ascii_of_N (Z.to_N (48 + d mod 10)).

(** ["%02d" % n] and ["%04d" % n] for a non-negative [n] that fits. *)
Definition pad2 (n : Z) : string :=
  String (digit_char (n / 10)) (String (digit_char n) EmptyString).

Definition pad4 (n : Z) : string :=
  String (digit_char (n / 1000)) (String (digit_char (n / 100))
    (String (digit_char (n / 10)) (String (digit_char n) EmptyString))).

End Str.

(** ** [datetime]

    The proleptic Gregorian calendar of Python's [datetime] module: the
    ordinal of a date counts days from 0001-01-01 (ordinal 1), and a
    [datetime] is naive ([tzinfo] is [None]) or aware (a fixed UTC offset,
    here in microseconds). *)

Module datetime.

Record t : Type := mk {
  year : Z; month : Z; day : Z;
  hour : Z; minute : Z; second : Z; microsecond : Z;
  tzinfo : option Z
}.

Definition MINYEAR : Z := 1.
Definition MAXYEAR : Z := 9999.
Definition MAXORDINAL : Z := 3652059.

Definition is_leap (y : Z) : bool :=
  (y mod 4 =? 0) && (negb (y mod 100 =? 0) || (y mod 400 =? 0)).

Definition days_in_month (y m : Z) : Z :=
  if m =? 2 then (if is_leap y then 29 else 28)
  else if (m =? 4) || (m =? 6) || (m =? 9) || (m =? 11) then 30
  else 31.

Definition days_before_year (y : Z) : Z :=
  let y' := y - 1 in
  y' * 365 + y' / 4 - y' / 100 + y' / 400.

(** Days of the year before the first of month [m], in a common year. *)
Definition DAYS_BEFORE_MONTH (m : Z) : Z :=
  match m with
  | 1 => 0 | 2 => 31 | 3 => 59 | 4 => 90 | 5 => 120 | 6 => 151
  | 7 => 181 | 8 => 212 | 9 => 243 | 10 => 273 | 11 => 304 | 12 => 334
  | _ => 0
  end.

Definition days_before_month (y m : Z) : Z :=
  DAYS_BEFORE_MONTH m + (if (2 <? m) && is_leap y then 1 else 0).

Definition ymd2ord (y m d : Z) : Z :=
  days_before_year y + days_before_month y m + d.

Definition DI400Y : Z := 146097.
Definition DI100Y : Z := 36524.
Definition DI4Y : Z := 1461.

(** The inverse of [ymd2ord], as [_ord2ymd] computes it. *)
Definition ord2ymd (n : Z) : Z * Z * Z :=
  let n := n - 1 in
  let n400 := n / DI400Y in let n := n mod DI400Y in
  let y := n400 * 400 + 1 in
  let n100 := n / DI100Y in let n := n mod DI100Y in
  let n4 := n / DI4Y in let n := n mod DI4Y in
  let n1 := n / 365 in let n := n mod 365 in
  let y := y + n100 * 100 + n4 * 4 + n1 in
  if (n1 =? 4) || (n100 =? 4) then (y - 1, 12, 31)
  else
    let leapyear := (n1 =? 3) && (negb (n4 =? 24) || (n100 =? 3)) in
    let m := Z.shiftr (n + 50) 5 in
    let preceding := DAYS_BEFORE_MONTH m + (if (2 <? m) && leapyear then 1 else 0) in
    if n <? preceding then
      let m := m - 1 in
      let dim := if (m =? 2) && leapyear then 29 else days_in_month 1 m in
      (y, m, n - (preceding - dim) + 1)
    else (y, m, n - preceding + 1).

Definition in_range (lo x hi : Z) : bool := (lo <=? x) && (x <=? hi).

(** The checks of the constructor [datetime(...)]; an offset must lie
    strictly within one day of UTC. *)
Definition valid (d : t) : bool :=
  in_range MINYEAR (year d) MAXYEAR &&
  in_range 1 (month d) 12 &&
  in_range 1 (day d) (days_in_month (year d) (month d)) &&
  in_range 0 (hour d) 23 &&
  in_range 0 (minute d) 59 &&
  in_range 0 (second d) 59 &&
  in_range 0 (microsecond d) 999999 &&
  match tzinfo d with
  | None => true
  | Some off => (- 86400000000 <? off) && (off <? 86400000000)
  end.

Definition make (y m d hh mi ss us : Z) (tz : option Z) : result t :=
  let dt := mk y m d hh mi ss us tz in
  if valid dt then Ok dt else Raise ValueError.

Definition toordinal (d : t) : Z := ymd2ord (year d) (month d) (day d).

(** Microseconds since the start of ordinal day 0, on the wall clock of
    [d]. *)
Definition wall_micros (d : t) : Z :=
  (((toordinal d * 24 + hour d) * 60 + minute d) * 60 + second d) * 1000000
  + microsecond d.

(** [d + timedelta(days=n)]: the time of day and the zone are kept;
    a date outside 0001-01-01 .. 9999-12-31 raises [OverflowError]. *)
Definition add_days (d : t) (n : Z) : result t :=
  let o := toordinal d + n in
  if (0 <? o) && (o <=? MAXORDINAL) then
    let '(y, m, dd) := ord2ymd o in
    Ok (mk y m dd (hour d) (minute d) (second d) (microsecond d) (tzinfo d))
  else Raise OverflowError.

(** [a > b].  Two naive values compare by their fields, two aware ones by
    the instants they denote; a naive and an aware one do not compare:
    [TypeError]. *)
Definition gt (a b : t) : result bool :=
  match tzinfo a, tzinfo b with
  | None, None => Ok (wall_micros b <? wall_micros a)
  | Some oa, Some ob => Ok (wall_micros b - ob <? wall_micros a - oa)
  | _, _ => Raise TypeError
  end.

(** [d.strftime('%Y-%m-%d')], with the four-digit year the library
    documents. *)
Definition strftime_ymd (d : t) : string :=
  (Str.pad4 (year d) ++ "-" ++ Str.pad2 (month d) ++ "-" ++ Str.pad2 (day d))%string.

(** *** Parsing *)

(** The directive [%m] of [strptime]: [1[0-2]|0[1-9]|[1-9]]. *)
Definition month_token (s : string) : option (Z * string) :=
  match s with
  | String a r =>
      match Str.digit a, r with
      | Some 1, String b r' =>
          match Str.digit b with
          | Some d => if d <=? 2 then Some (10 + d, r') else Some (1, r)
          | None => Some (1, r)
          end
      | Some 0, String b r' =>
          match Str.digit b with
          | Some d => if 1 <=? d then Some (d, r') else None
          | None => None
          end
      | Some 0, EmptyString => None
      | Some d, _ => Some (d, r)
      | None, _ => None
      end
  | EmptyString => None
  end.

(** The directive [%d] of [strptime]:
    [3[0-1]|[1-2]\d|0[1-9]|[1-9]| [1-9]]. *)
Definition day_token (s : string) : option (Z * string) :=
  match s with
  | String a r =>
      match Str.digit a, r with
      | Some 3, String b r' =>
          match Str.digit b with
          | Some d => if d <=? 1 then Some (30 + d, r') else Some (3, r)
          | None => Some (3, r)
          end
      | Some 0, String b r' =>
          match Str.digit b with
          | Some d => if 1 <=? d then Some (d, r') else None
          | None => None
          end
      | Some 0, EmptyString => None
      | Some d, String b r' =>
          if d <=? 2 then
            match Str.digit b with
            | Some e => Some (10 * d + e, r')
            | None => Some (d, r)
            end
          else Some (d, r)
      | Some d, EmptyString => Some (d, r)
      | None, String b r' =>
          if Ascii.eqb a " " then
            match Str.digit b with
            | Some d => if 1 <=? d then Some (d, r') else None
            | None => None
            end
          else None
      | None, EmptyString => None
      end
  | EmptyString => None
  end.

(** [datetime.strptime(s, '%Y-%m-%d')]: the format must match all of
    [s], and the date must exist. *)
Definition strptime_ymd (s : string) : option t :=
  let? (y, r) := Str.digits 4 0 s in
  let? r := Str.expect "-" r in
  let? (m, r) := month_token r in
  let? r := Str.expect "-" r in
  let? (d, r) := day_token r in
  if Str.is_empty r then of_result (make y m d 0 0 0 0 None) else None.

(** [HH[:MM[:SS[.fff[fff]]]]], all of [s]. *)
Definition parse_hh_mm_ss_ff (s : string) : option (Z * Z * Z * Z) :=
  let? (h, r) := Str.digits 2 0 s in
  match r with
  | EmptyString => Some (h, 0, 0, 0)
  | String c r =>
      if negb (Ascii.eqb c ":") then None else
      let? (m, r) := Str.digits 2 0 r in
      match r with
      | EmptyString => Some (h, m, 0, 0)
      | String c r =>
          if negb (Ascii.eqb c ":") then None else
          let? (sec, r) := Str.digits 2 0 r in
          match r with
          | EmptyString => Some (h, m, sec, 0)
          | String c r =>
              if negb (Ascii.eqb c ".") then None else
              match String.length r with
              | 3%nat => let? (f, _) := Str.digits 3 0 r in Some (h, m, sec, f * 1000)
              | 6%nat => let? (f, _) := Str.digits 6 0 r in Some (h, m, sec, f)
              | _ => None
              end
          end
      end
  end.

(** Splits [s] at its first ['+'] or ['-']: the part before, and, when
    there is a sign, the sign ([true] for ['-']) and the part after. *)
Fixpoint split_sign (s : string) : string * option (bool * string) :=
  match s with
  | EmptyString => (EmptyString, None)
  | String a r =>
      if Ascii.eqb a "+" then (EmptyString, Some (false, r))
      else if Ascii.eqb a "-" then (EmptyString, Some (true, r))
      else let '(before, after) := split_sign r in (String a before, after)
  end.

(** The zone [+HH:MM[:SS[.ffffff]]] after its sign, as an offset in
    microseconds. *)
Definition parse_offset (negative : bool) (s : string) : option Z :=
  let n := String.length s in
  if negb ((n =? 5)%nat || (n =? 8)%nat || (n =? 15)%nat) then None else
  let? (h, m, sec, us) := parse_hh_mm_ss_ff s in
  let off := ((h * 60 + m) * 60 + sec) * 1000000 + us in
  Some (if negative then - off else off).

(** [datetime.fromisoformat(s)], for the grammar every version since
    3.7 accepts:
    [YYYY-MM-DD[*HH[:MM[:SS[.fff[fff]]]][+HH:MM[:SS[.ffffff]]]]],
    where [*] is any one character. *)
Definition fromisoformat (s : string) : option t :=
  let? (y, r) := Str.digits 4 0 s in
  let? r := Str.expect "-" r in
  let? (m, r) := Str.digits 2 0 r in
  let? r := Str.expect "-" r in
  let? (d, r) := Str.digits 2 0 r in
  match r with
  | EmptyString => of_result (make y m d 0 0 0 0 None)
  | String _ tstr =>
      let '(timestr, zone) := split_sign tstr in
      let? (hh, mi, ss, us) := parse_hh_mm_ss_ff timestr in
      match zone with
      | None => of_result (make y m d hh mi ss us None)
      | Some (negative, tzstr) =>
          let? off := parse_offset negative tzstr in
          of_result (make y m d hh mi ss us (Some off))
      end
  end.

End datetime.

(** ** The data of the program *)

(** A value that is a string or [None]. *)
Inductive pystr : Type :=
| PyNone
| PyStr (s : string).

(** [not v] is false for a non-empty string only. *)
Definition truthy (v : pystr) : bool :=
  match v with
  | PyNone => false
  | PyStr s => negb (Str.is_empty s)
  end.

(** The dictionary [patron_info] of lines 95-100. *)
Record patron : Type := mk_patron {
  member_id : string;
  displayed_name : string;
  last_payment_timestamp : string;
  pledge_amount_cents : Z
}.

(** What the program prints, one constructor per [print]; the source
    line is given with each. *)
Inductive line : Type :=
| WarnConfig (config_file : string) (e : exn)               (* 43 *)
| ErrorTokenNotSet                                          (* 55 *)
| ErrorCampaignNotSet                                       (* 59 *)
| FetchedPatrons (n : nat)                                  (* 108 *)
| ErrorFetching (e : exn)                                   (* 112 *)
| WarnUnknownPledge (pledge_cents : Z) (name : string)      (* 138 *)
| WarnParseDate (name last_charge : string) (e : exn)       (* 156 *)
| Fetching                                                  (* 200 *)
| NoPatronsFound                                            (* 205-209 *)
| GeneratedEmpty (json_path : string)                       (* 217 *)
| Categorizing                                              (* 220 *)
| UpdatedCsv (filepath : string) (n : nat)                  (* 237 *)
| GeneratedJson (json_path : string) (n : nat)              (* 258 *)
| AllUpdated                                                (* 260 *)
| CountOneYear (n : nat)                                    (* 261 *)
| CountSixMonths (n : nat)                                  (* 262 *)
| CountOneMonth (n : nat).                                  (* 263 *)

(** A dictionary whose order of insertion matters. *)
Definition dict (V : Type) : Type := list (string * V).

(** [d[k]]: [KeyError] when the key is missing. *)
Fixpoint dict_get {V : Type} (k : string) (d : dict V) : result V :=
  match d with
  | [] => Raise (KeyError k)
  | (k', v) :: d' => if String.eqb k' k then Ok v else dict_get k d'
  end.

(** [d[k].append(x)]. *)
Fixpoint dict_append {V : Type} (k : string) (x : V) (d : dict (list V))
  : result (dict (list V)) :=
  match d with
  | [] => Raise (KeyError k)
  | (k', l) :: d' =>
      if String.eqb k' k then Ok ((k', l ++ [x]) :: d')
      else let* d'' := dict_append k x d' in Ok ((k', l) :: d'')
  end.

Definition keys {V : Type} (d : dict V) : list string := map fst d.

(** ** Configuration: lines 16-45 *)

Definition CONFIG_FILE : string := ".patreon.env".
Definition BASE_URL : string := "https://www.patreon.com/api/oauth2/v2".

(** The state of a configuration file: it does not exist, or it exists
    and [dotenv_values] raises on it, or it exists and [dotenv_values]
    returns its bindings.  A key that the file lists without a value is
    bound to [None]. *)
Inductive dotenv_file : Type :=
| Missing
| Unreadable (e : exn)
| Values (config : gmap string pystr).

(** [os.environ.get(k, '')]. *)
Definition environ_get (environ : gmap string string) (k : string) : pystr :=
  PyStr (default "" (environ !! k)).

(** [config.get(k, '')]. *)
Definition config_get (config : gmap string pystr) (k : string) : pystr :=
  default (PyStr "") (config !! k).

Definition load_config (environ : gmap string string)
    (exists_ : string -> dotenv_file) (config_file : string)
  : list line * (pystr * pystr) :=
  let token := environ_get environ "PATREON_ACCESS_TOKEN" in
  let campaign_id := environ_get environ "PATREON_CAMPAIGN_ID" in
  if negb (truthy token) || negb (truthy campaign_id) then
    match exists_ config_file with
    | Missing => ([], (token, campaign_id))
    | Values config =>
        let token :=
          if negb (truthy token) then config_get config "PATREON_ACCESS_TOKEN"
          else token in
        let campaign_id :=
          if negb (truthy campaign_id) then config_get config "PATREON_CAMPAIGN_ID"
          else campaign_id in
        ([], (token, campaign_id))
    | Unreadable e => ([WarnConfig config_file e], (token, campaign_id))
    end
  else ([], (token, campaign_id)).

(** ** The members endpoint: lines 48-113 *)

(** The decoded body of one response, with the keys the program reads.
    A key read with [.get] may be absent; the values that are present
    have the types the API documents. *)
Module Api.

Record user_attributes : Type := { full_name : option string }.

(** An entry of ["included"]. *)
Record resource : Type := {
  resource_id : string;
  resource_type : string;
  resource_attributes : option user_attributes
}.

Record member : Type := {
  id : string;
  patron_status : pystr;
  last_charge_date : option string;
  currently_entitled_amount_cents : option Z;
  user_id : string
}.

Record page : Type := {
  data : list member;
  included : list resource;
  next : pystr
}.

End Api.

(** One call of [requests.get]. *)
Record request : Type := {
  url : string;
  authorization : string;
  with_params : bool
}.

(** The remote service during one run: what [requests.get],
    [raise_for_status] and [response.json] together make of a request,
    either the decoded body or the exception one of them raises.  A body
    that decodes but lacks a key that lines 88-92 index with brackets is
    the [KeyError] that the indexing raises: the loop leaves by it before
    the page adds any patron that a caller could see. *)
Definition service : Type := request -> result Api.page.

(** [f'{v}']. *)
Definition format (v : pystr) : string :=
  match v with
  | PyNone => "None"
  | PyStr s => s
  end.

(** Line 88: a later entry replaces an earlier one with the same id. *)
Definition included_users (included : list Api.resource) : gmap string Api.resource :=
  fold_left
    (fun users user =>
       if String.eqb (Api.resource_type user) "user"
       then <[Api.resource_id user := user]> users else users)
    included ∅.

(** Lines 92-100. *)
Definition patron_info (users : gmap string Api.resource) (member : Api.member) : patron :=
  let name :=
    match users !! Api.user_id member with
    | Some user =>
        match Api.resource_attributes user with
        | Some a => default "Anonymous" (Api.full_name a)
        | None => "Anonymous"
        end
    | None => "Anonymous"
    end in
  {| member_id := Api.id member;
     displayed_name := name;
     last_payment_timestamp := default "" (Api.last_charge_date member);
     pledge_amount_cents := default 0 (Api.currently_entitled_amount_cents member) |}.

Definition is_active (member : Api.member) : bool :=
  match Api.patron_status member with
  | PyStr s => String.eqb s "active_patron"
  | PyNone => false
  end.

(** Lines 88-102: the patrons one page adds to [all_patrons]. *)
Definition page_patrons (data : Api.page) : list patron :=
  let users := included_users (Api.included data) in
  map (patron_info users) (filter is_active (Api.data data)).

(** The loop of lines 79-106.  It runs as long as the service hands out
    next links, so the model counts iterations down from [fuel] and
    returns [None] when they run out. *)
Fixpoint while_url (fuel : nat) (get : service) (token : string)
    (url : pystr) (params : bool) (all_patrons : list patron)
  : option (result (list patron)) :=
  if negb (truthy url) then Some (Ok all_patrons) else
  match fuel with
  | O => None
  | S fuel' =>
      match get {| url := format url;
                   authorization := ("Bearer " ++ token)%string;
                   with_params := params |} with
      | Raise e => Some (Raise e)
      | Ok data =>
          while_url fuel' get token (Api.next data) false
            (all_patrons ++ page_patrons data)
      end
  end.

Definition members_url (CAMPAIGN_ID : pystr) : string :=
  (BASE_URL ++ "/campaigns/" ++ format CAMPAIGN_ID ++ "/members")%string.

Definition get_patrons (fuel : nat) (get : service)
    (PATREON_ACCESS_TOKEN CAMPAIGN_ID : pystr)
  : option (list line * result (list patron)) :=
  if negb (truthy PATREON_ACCESS_TOKEN) then Some ([ErrorTokenNotSet], Ok [])
  else if negb (truthy CAMPAIGN_ID) then Some ([ErrorCampaignNotSet], Ok [])
  else
    match while_url fuel get (format PATREON_ACCESS_TOKEN)
            (PyStr (members_url CAMPAIGN_ID)) true [] with
    | None => None
    | Some (Ok all_patrons) =>
        Some ([FetchedPatrons (length all_patrons)], Ok all_patrons)
    | Some (Raise e) =>
        if is_RequestException e then Some ([ErrorFetching e], Ok [])
        else Some ([], Raise e)
    end.

(** ** Classification: lines 115-163 *)

(** The type of [categories]: a list of patrons under each tier key. *)
Definition buckets : Type := dict (list patron).

(** The wall clock of the machine: [readings n] is the local time at the
    [n]-th reading and [reads] counts the readings so far. *)
Record clock : Type := {
  readings : nat -> datetime.t;
  reads : nat
}.

(** [datetime.now()]: a naive value. *)
Definition datetime_now (c : clock) : datetime.t * clock :=
  let d := readings c (reads c) in
  (datetime.mk (datetime.year d) (datetime.month d) (datetime.day d)
     (datetime.hour d) (datetime.minute d) (datetime.second d)
     (datetime.microsecond d) None,
   {| readings := readings c; reads := S (reads c) |}).

(** Lines 128-139: the window in days and the key of the bucket. *)
Definition tier_of (pledge_cents : Z) : option (Z * string) :=
  if pledge_cents =? 300 then Some (30, "one_month")
  else if pledge_cents =? 500 then Some (180, "six_months")
  else if pledge_cents =? 1500 then Some (365, "one_year")
  else None.

Definition or_ValueError {A : Type} (o : option A) : result A :=
  match o with
  | Some a => Ok a
  | None => Raise ValueError
  end.

(** Lines 147-150. *)
Definition parse_charge_date (last_charge : string) : result datetime.t :=
  if Str.contains "T" last_charge
  then or_ValueError (datetime.fromisoformat (Str.replace "Z" "+00:00" last_charge))
  else or_ValueError (datetime.strptime_ymd last_charge).

(** Lines 147-153: the test of line 153. *)
Definition is_eligible (now : datetime.t) (last_charge : string) (duration_days : Z)
  : result bool :=
  let* charge_date := parse_charge_date last_charge in
  let* eligible_until := datetime.add_days charge_date duration_days in
  datetime.gt eligible_until now.

(** The exceptions that line 155 catches. *)
Definition is_ValueError_or_TypeError (e : exn) : bool :=
  match e with
  | ValueError | TypeError => true
  | _ => false
  end.

(** Lines 126-157: one iteration, with what it prints. *)
Definition categorize_patron (now : datetime.t) (categories : buckets)
    (patron : patron) : list line * result (buckets) :=
  let pledge_cents := pledge_amount_cents patron in
  match tier_of pledge_cents with
  | None =>
      ([WarnUnknownPledge pledge_cents (displayed_name patron)], Ok categories)
  | Some (duration_days, category) =>
      let last_charge := last_payment_timestamp patron in
      if Str.is_empty last_charge then ([], Ok categories) else
      match
        (let* eligible := is_eligible now last_charge duration_days in
         if eligible then dict_append category patron categories
         else Ok categories)
      with
      | Ok categories' => ([], Ok categories')
      | Raise e =>
          if is_ValueError_or_TypeError e
          then ([WarnParseDate (displayed_name patron) last_charge e], Ok categories)
          else ([], Raise e)
      end
  end.

(** Lines 125-157: the loop stops at the first exception that escapes. *)
Fixpoint for_patron (now : datetime.t) (patrons : list patron)
    (categories : buckets) : list line * result (buckets) :=
  match patrons with
  | [] => ([], Ok categories)
  | patron :: rest =>
      match categorize_patron now categories patron with
      | (out, Ok categories') =>
          let '(out', r) := for_patron now rest categories' in (out ++ out', r)
      | (out, Raise e) => (out, Raise e)
      end
  end.

(** The key of line 161. *)
Definition sort_key (p : patron) : string := Str.lower (displayed_name p).

Fixpoint insert_by_key (p : patron) (l : list patron) : list patron :=
  match l with
  | [] => [p]
  | q :: l' =>
      if String.leb (sort_key p) (sort_key q) then p :: q :: l'
      else q :: insert_by_key p l'
  end.

(** [cat_list.sort(key=...)].  The sort of Python is stable and a list
    has one stable sorting, which insertion from the right builds: an
    element goes in front of the later elements with an equal key. *)
Definition sort_by_key (l : list patron) : list patron :=
  fold_right insert_by_key [] l.

(** Lines 160-161. *)
Definition sort_buckets (categories : buckets) : buckets :=
  map (fun '(k, cat_list) => (k, sort_by_key cat_list)) categories.

(** Lines 119-123. *)
Definition empty_categories : buckets :=
  [("one_month", []); ("six_months", []); ("one_year", [])].

Definition categorize_patrons (c : clock) (patrons : list patron)
  : clock * list line * result (buckets) :=
  let '(now, c) := datetime_now c in
  match for_patron now patrons empty_categories with
  | (out, Ok categories) =>
      (c, out, Ok (sort_buckets categories))
  | (out, Raise e) => (c, out, Raise e)
  end.

(** ** Emission: lines 166-190 and 223-253 *)

(** An entry of [patrons.json]. *)
Record entry : Type := {
  entry_member_id : string;
  entry_displayed_name : string;
  entry_tier : string;
  entry_last_payment_timestamp : string
}.

(** What a file holds: the rows of a CSV file, the header first, or the
    list that [json.dump] serialises. *)
Inductive file : Type :=
| Csv (rows : list (list string))
| Json (entries : list entry).

Definition fieldnames : list string :=
  ["member_id"; "displayed_name"; "last_payment_timestamp"].

(** Lines 177-184. *)
Definition format_timestamp (timestamp : string) : string :=
  if Str.contains "T" timestamp then
    match datetime.fromisoformat (Str.replace "Z" "+00:00" timestamp) with
    | Some dt => datetime.strftime_ymd dt
    | None => timestamp
    end
  else timestamp.

(** Lines 186-190. *)
Definition csv_row (patron : patron) : list string :=
  [member_id patron; displayed_name patron;
   format_timestamp (last_payment_timestamp patron)].

Definition write_csv (filename : string) (patrons : list patron)
    (fs : gmap string file) : gmap string file :=
  <[filename := Csv (fieldnames :: map csv_row patrons)]> fs.

Definition data_dir : string := "_data".

(** [os.path.join(data_dir, name)]. *)
Definition path_join (dir name : string) : string := (dir ++ "/" ++ name)%string.

Definition json_path : string := path_join data_dir "patrons.json".

Definition files : dict string :=
  [("one_month", path_join data_dir "one_month_mentions.csv");
   ("six_months", path_join data_dir "six_months_mentions.csv");
   ("one_year", path_join data_dir "one_year_mentions.csv")].

Definition tier_names : dict string :=
  [("one_month", "NOTUS"); ("six_months", "ZEPHYRUS"); ("one_year", "BOREAS")].

(** Lines 248-253. *)
Definition patron_entry (tier : string) (patron : patron) : entry :=
  {| entry_member_id := member_id patron;
     entry_displayed_name := displayed_name patron;
     entry_tier := tier;
     entry_last_payment_timestamp := last_payment_timestamp patron |}.

(** Lines 245-253. *)
Fixpoint all_patrons_data (categories : buckets) : result (list entry) :=
  match categories with
  | [] => Ok []
  | (category, patron_list) :: rest =>
      let* tier := dict_get category tier_names in
      let* data := all_patrons_data rest in
      Ok (map (patron_entry tier) patron_list ++ data)
  end.

(** ** The run: lines 192-263 *)

(** What a run reads and writes. *)
Record world : Type := {
  environ : gmap string string;
  dotenv : string -> dotenv_file;
  remote : service;
  wall_clock : clock;
  fs : gmap string file;
  stdout : list line
}.

Definition print (out : list line) (w : world) : world :=
  {| environ := environ w; dotenv := dotenv w; remote := remote w;
     wall_clock := wall_clock w; fs := fs w; stdout := stdout w ++ out |}.

Definition with_fs (fs' : gmap string file) (w : world) : world :=
  {| environ := environ w; dotenv := dotenv w; remote := remote w;
     wall_clock := wall_clock w; fs := fs'; stdout := stdout w |}.

Definition with_clock (c : clock) (w : world) : world :=
  {| environ := environ w; dotenv := dotenv w; remote := remote w;
     wall_clock := c; fs := fs w; stdout := stdout w |}.

(** Lines 234-237. *)
Fixpoint write_csv_files (files : dict string) (categories : buckets) (w : world)
  : result unit * world :=
  match files with
  | [] => (Ok tt, w)
  | (category, filepath) :: rest =>
      match dict_get category categories with
      | Ok patron_list =>
          let w := with_fs (write_csv filepath patron_list (fs w)) w in
          let w := print [UpdatedCsv filepath (length patron_list)] w in
          write_csv_files rest categories w
      | Raise e => (Raise e, w)
      end
  end.

(** Lines 260-263. *)
Definition print_summary (categories : buckets) (w : world) : result unit * world :=
  let w := print [AllUpdated] w in
  match dict_get "one_year" categories with
  | Raise e => (Raise e, w)
  | Ok l =>
      let w := print [CountOneYear (length l)] w in
      match dict_get "six_months" categories with
      | Raise e => (Raise e, w)
      | Ok l =>
          let w := print [CountSixMonths (length l)] w in
          match dict_get "one_month" categories with
          | Raise e => (Raise e, w)
          | Ok l => (Ok tt, print [CountOneMonth (length l)] w)
          end
      end
  end.

(** Lines 220-263: the run once some patrons are fetched. *)
Definition emit (patrons : list patron) (w : world) : result unit * world :=
  let w := print [Categorizing] w in
  let '(c, out, r) := categorize_patrons (wall_clock w) patrons in
  let w := print out (with_clock c w) in
  match r with
  | Raise e => (Raise e, w)
  | Ok categories =>
      match write_csv_files files categories w with
      | (Raise e, w) => (Raise e, w)
      | (Ok _, w) =>
          match all_patrons_data categories with
          | Raise e => (Raise e, w)
          | Ok data =>
              let w := with_fs (<[json_path := Json data]> (fs w)) w in
              let w := print [GeneratedJson json_path (length data)] w in
              print_summary categories w
          end
      end
  end.

(** Lines 198-202: the credentials, then the fetch. *)
Definition fetch (fuel : nat) (w : world) : option (result (list patron) * world) :=
  let '(out, (PATREON_ACCESS_TOKEN, CAMPAIGN_ID)) :=
    load_config (environ w) (dotenv w) CONFIG_FILE in
  let w := print (out ++ [Fetching]) w in
  match get_patrons fuel (remote w) PATREON_ACCESS_TOKEN CAMPAIGN_ID with
  | None => None
  | Some (out, r) => Some (r, print out w)
  end.

(** [main()].  [Ok tt] is the normal return, after which the process
    exits with status 0; [Raise e] is an exception that nothing catches. *)
Definition main (fuel : nat) (w : world) : option (result unit * world) :=
  match fetch fuel w with
  | None => None
  | Some (Raise e, w) => Some (Raise e, w)
  | Some (Ok [], w) =>
      let w := print [NoPatronsFound] w in
      let w := with_fs (<[json_path := Json []]> (fs w)) w in
      Some (Ok tt, print [GeneratedEmpty json_path] w)
  | Some (Ok patrons, w) => Some (emit patrons w)
  end.

(** ** Notions the properties are stated with *)

(** A bare date: four digits, two digits and two digits, joined by
    hyphens. *)
Definition is_bare_date (s : string) : bool :=
  match
    (let? (_, r) := Str.digits 4 0 s in
     let? r := Str.expect "-" r in
     let? (_, r) := Str.digits 2 0 r in
     let? r := Str.expect "-" r in
     let? (_, r) := Str.digits 2 0 r in
     Some r)
  with
  | Some EmptyString => true
  | _ => false
  end.

(** The year, the month and the day that a bare date spells. *)
Definition read_bare_date (s : string) : option (Z * Z * Z) :=
  let? (y, r) := Str.digits 4 0 s in
  let? r := Str.expect "-" r in
  let? (m, r) := Str.digits 2 0 r in
  let? r := Str.expect "-" r in
  let? (d, r) := Str.digits 2 0 r in
  if Str.is_empty r then Some (y, m, d) else None.

(** The order of line 161: display names compared without case. *)
Definition name_le (p q : patron) : Prop :=
  String.leb (Str.lower (displayed_name p)) (Str.lower (displayed_name q)) = true.

(** The same order on the rows of a CSV file, whose second column is the
    display name. *)
Definition row_le (r1 r2 : list string) : Prop :=
  String.leb (Str.lower (nth 1 r1 "")) (Str.lower (nth 1 r2 "")) = true.

(** Every patron of every bucket satisfies [Q] with the key of its
    bucket. *)
Definition all_in (Q : string -> patron -> Prop) (categories : buckets) : Prop :=
  forall k bucket p, In (k, bucket) categories -> In p bucket -> Q k p.

(** Patron [p] passes lines 128-153 into the bucket [k] at time [now]. *)
Definition qualifies (now : datetime.t) (k : string) (p : patron) : Prop :=
  exists days charge_date eligible_until,
    tier_of (pledge_amount_cents p) = Some (days, k) /\
    last_payment_timestamp p <> "" /\
    parse_charge_date (last_payment_timestamp p) = Ok charge_date /\
    datetime.add_days charge_date days = Ok eligible_until /\
    datetime.gt eligible_until now = Ok true.

(** The request of line 82. *)
Definition request_of (token : string) (url : pystr) (params : bool) : request :=
  {| url := format url;
     authorization := ("Bearer " ++ token)%string;
     with_params := params |}.

(** [follows get token url params pages url' params']: starting with the
    request for [url], the service answers with [pages], one after the
    other along their next links, and [url'] is the link of the last of
    them. *)
Inductive follows (get : service) (token : string)
  : pystr -> bool -> list Api.page -> pystr -> bool -> Prop :=
| follows_nil url params : follows get token url params [] url params
| follows_cons url params data pages url' params' :
    truthy url = true ->
    get (request_of token url params) = Ok data ->
    follows get token (Api.next data) false pages url' params' ->
    follows get token url params (data :: pages) url' params'.

(** The entries of [patrons.json] for three buckets, in the order of the
    tiers. *)
Definition entries_of (one_month six_months one_year : list patron) : list entry :=
  map (patron_entry "NOTUS") one_month ++
  map (patron_entry "ZEPHYRUS") six_months ++
  map (patron_entry "BOREAS") one_year.

(** The output directory after the four files are written. *)
Definition emitted (one_month six_months one_year : list patron)
    (fs : gmap string file) : gmap string file :=
  <[json_path := Json (entries_of one_month six_months one_year)]>
    (<["_data/one_year_mentions.csv" := Csv (fieldnames :: map csv_row one_year)]>
      (<["_data/six_months_mentions.csv" := Csv (fieldnames :: map csv_row six_months)]>
        (<["_data/one_month_mentions.csv" := Csv (fieldnames :: map csv_row one_month)]>
          fs))).

(** The key of the bucket to which lines 126-154 append [p] at time
    [now], when they append it. *)
Definition bucket_of (now : datetime.t) (p : patron) : option string :=
  match tier_of (pledge_amount_cents p) with
  | None => None
  | Some (days, k) =>
      if Str.is_empty (last_payment_timestamp p) then None
      else
        match is_eligible now (last_payment_timestamp p) days with
        | Ok true => Some k
        | _ => None
        end
  end.

Definition in_bucket (now : datetime.t) (k : string) (p : patron) : bool :=
  match bucket_of now p with
  | Some k' => String.eqb k' k
  | None => false
  end.

(** What lines 138 and 156 print for [p] at time [now]: nothing for a
    patron that is appended, whose window is over, or whose timestamp is
    empty. *)
Definition warning_of (now : datetime.t) (p : patron) : list line :=
  match tier_of (pledge_amount_cents p) with
  | None => [WarnUnknownPledge (pledge_amount_cents p) (displayed_name p)]
  | Some (days, _) =>
      if Str.is_empty (last_payment_timestamp p) then []
      else
        match is_eligible now (last_payment_timestamp p) days with
        | Ok _ => []
        | Raise e =>
            if is_ValueError_or_TypeError e
            then [WarnParseDate (displayed_name p) (last_payment_timestamp p) e]
            else []
        end
  end.

(** The buckets with the patrons of [ps] that belong to each appended. *)
Definition extended (now : datetime.t) (a b c ps : list patron) : buckets :=
  [("one_month", a ++ List.filter (in_bucket now "one_month") ps);
   ("six_months", b ++ List.filter (in_bucket now "six_months") ps);
   ("one_year", c ++ List.filter (in_bucket now "one_year") ps)].

(** ** Sample runs *)

Module Sample.

(** Noon on 2024-03-20. *)
Definition noon : datetime.t := datetime.mk 2024 3 20 12 0 0 0 None.

Definition clock_at (d : datetime.t) : clock :=
  {| readings := fun _ => d; reads := 0 |}.

Definition ann : patron := mk_patron "m1" "Ann" "2024-03-15T10:00:00Z" 300.
Definition bob : patron := mk_patron "m2" "bob" "2024-03-15T10:00:00" 300.
Definition Carl : patron := mk_patron "m3" "Carl" "2024-03-15" 1500.
Definition dora : patron := mk_patron "m4" "dora" "9999-12-31" 300.
Definition eve : patron := mk_patron "m5" "eve" "2024-03-15" 42.
Definition alfred : patron := mk_patron "m6" "alfred" "2024-03-01" 300.
Definition fay : patron := mk_patron "m7" "fay" "" 500.
Definition gus : patron := mk_patron "m8" "gus" "soon" 500.
Definition Bea : patron := mk_patron "m9" "Bea" "2024-03-10" 300.
Definition Bob : patron := mk_patron "m10" "Bob" "2024-03-12" 300.
Definition BOB : patron := mk_patron "m11" "BOB" "2024-03-11" 300.

(** A batch in no particular order, and what becomes of it at noon. *)
Definition batch : list patron := [bob; eve; Carl; alfred; Bea; fay; gus].

Definition read_once : clock := {| readings := fun _ => noon; reads := 1 |}.

Definition batch_out : list line :=
  [WarnUnknownPledge 42 "eve"; WarnParseDate "gus" "soon" ValueError].

Definition batch_buckets : buckets :=
  [("one_month", [alfred; Bea; bob]); ("six_months", []); ("one_year", [Carl])].

Definition bob_member : Api.member :=
  {| Api.id := "m2"; Api.patron_status := PyStr "active_patron";
     Api.last_charge_date := Some "2024-03-15T10:00:00";
     Api.currently_entitled_amount_cents := Some 300;
     Api.user_id := "u2" |}.

Definition bob_user : Api.resource :=
  {| Api.resource_id := "u2"; Api.resource_type := "user";
     Api.resource_attributes := Some {| Api.full_name := Some "bob" |} |}.

(** An earlier record of the same user, a resource of another type with
    the same id, and members that are not active or have no user
    record. *)
Definition stale_user : Api.resource :=
  {| Api.resource_id := "u2"; Api.resource_type := "user";
     Api.resource_attributes := Some {| Api.full_name := Some "Robert" |} |}.

Definition campaign : Api.resource :=
  {| Api.resource_id := "u2"; Api.resource_type := "campaign";
     Api.resource_attributes := None |}.

Definition former_member : Api.member :=
  {| Api.id := "m20"; Api.patron_status := PyStr "former_patron";
     Api.last_charge_date := Some "2024-03-01";
     Api.currently_entitled_amount_cents := Some 500;
     Api.user_id := "u2" |}.

Definition nameless_member : Api.member :=
  {| Api.id := "m21"; Api.patron_status := PyStr "active_patron";
     Api.last_charge_date := None;
     Api.currently_entitled_amount_cents := None;
     Api.user_id := "u9" |}.

Definition mixed_page : Api.page :=
  {| Api.data := [former_member; bob_member; nameless_member];
     Api.included := [stale_user; bob_user; campaign];
     Api.next := PyNone |}.

(** A service with the one mixed page. *)
Definition mixed : service := fun _ => Ok mixed_page.

Definition first_page : Api.page :=
  {| Api.data := [bob_member]; Api.included := [bob_user];
     Api.next := PyStr "https://www.patreon.com/api/oauth2/v2/page2" |}.

Definition only_page : Api.page :=
  {| Api.data := [bob_member]; Api.included := [bob_user]; Api.next := PyNone |}.

(** A service whose first page loads and whose second page times out. *)
Definition flaky : service :=
  fun r => if with_params r then Ok first_page else Raise Timeout.

(** A service whose first page loads and whose second page has a body
    without the expected keys. *)
Definition broken : service :=
  fun r => if with_params r then Ok first_page else Raise (KeyError "attributes").

(** A service that answers only requests that carry the token. *)
Definition guarded : service :=
  fun r => if String.eqb (authorization r) "Bearer token" then Ok only_page
           else Raise (HTTPError 401).

(** A service with a single page. *)
Definition steady : service := fun _ => Ok only_page.

Definition credentials : gmap string string :=
  {[ "PATREON_ACCESS_TOKEN" := "token"; "PATREON_CAMPAIGN_ID" := "42" ]}.

(** No credentials anywhere. *)
Definition bare : world :=
  {| environ := ∅; dotenv := fun _ => Missing; remote := steady;
     wall_clock := clock_at noon; fs := ∅; stdout := [] |}.

(** Credentials in the environment and one page of patrons. *)
Definition live : world :=
  {| environ := credentials; dotenv := fun _ => Missing; remote := steady;
     wall_clock := clock_at noon; fs := ∅; stdout := [] |}.

(** Credentials in the environment and a service that breaks off. *)
Definition cut_off : world :=
  {| environ := credentials; dotenv := fun _ => Missing; remote := broken;
     wall_clock := clock_at noon; fs := ∅; stdout := [] |}.

(** A configuration file that gives the token and lists the campaign id
    without a value. *)
Definition half_file : dotenv_file :=
  Values {[ "PATREON_ACCESS_TOKEN" := PyStr "from-file";
            "PATREON_CAMPAIGN_ID" := PyNone ]}.

End Sample.

(** * Properties *)

(** ** The order on strings *)

Lemma string_leb_trans (s1 s2 s3 : string) :
  String.leb s1 s2 = true -> String.leb s2 s3 = true -> String.leb s1 s3 = true.
Proof.
  revert s2 s3.
  induction s1 as [|a s1 IH]; intros [|b s2] [|c s3]; unfold String.leb;
    simpl; try congruence.
  unfold Ascii.compare.
  destruct (N.compare_spec (N_of_ascii a) (N_of_ascii b)) as [Hab|Hab|Hab];
    destruct (N.compare_spec (N_of_ascii b) (N_of_ascii c)) as [Hbc|Hbc|Hbc];
    destruct (N.compare_spec (N_of_ascii a) (N_of_ascii c)) as [Hac|Hac|Hac];
    try congruence; try lia.
  apply IH.
Qed.

Lemma string_leb_flip (s1 s2 : string) :
  String.leb s1 s2 = false -> String.leb s2 s1 = true.
Proof.
  intros H. destruct (String.leb_total s1 s2) as [H'|H']; congruence.
Qed.

(** ** The sort of line 161 *)

Lemma insert_by_key_perm (p : patron) (l : list patron) :
  Permutation (insert_by_key p l) (p :: l).
Proof.
  induction l as [|q l IH]; simpl.
  - apply Permutation_refl.
  - destruct (String.leb (sort_key p) (sort_key q)).
    + apply Permutation_refl.
    + eapply perm_trans; [apply perm_skip, IH | apply perm_swap].
Qed.

Lemma sort_by_key_perm (l : list patron) : Permutation (sort_by_key l) l.
Proof.
  induction l as [|p l IH]; simpl.
  - apply perm_nil.
  - eapply perm_trans; [apply insert_by_key_perm | apply perm_skip, IH].
Qed.

Lemma sort_by_key_In (l : list patron) (p : patron) :
  In p (sort_by_key l) <-> In p l.
Proof.
  split; apply Permutation_in;
    [apply sort_by_key_perm | apply Permutation_sym, sort_by_key_perm].
Qed.

Lemma insert_by_key_sorted (p : patron) (l : list patron) :
  StronglySorted name_le l -> StronglySorted name_le (insert_by_key p l).
Proof.
  induction 1 as [|q l Hl IH Hq]; simpl.
  - constructor; constructor.
  - destruct (String.leb (sort_key p) (sort_key q)) eqn:E.
    + constructor; [constructor; assumption|].
      constructor; [exact E|].
      eapply List.Forall_impl; [|exact Hq].
      intros r Hr. exact (string_leb_trans _ _ _ E Hr).
    + constructor; [exact IH|].
      eapply Permutation_Forall; [apply Permutation_sym, insert_by_key_perm|].
      constructor; [apply string_leb_flip, E | exact Hq].
Qed.

Lemma sort_by_key_sorted (l : list patron) : StronglySorted name_le (sort_by_key l).
Proof.
  induction l as [|p l IH]; simpl.
  - constructor.
  - apply insert_by_key_sorted, IH.
Qed.

(** ** Dictionaries *)

Lemma dict_append_keys {V : Type} (k : string) (x : V) (d d' : dict (list V)) :
  dict_append k x d = Ok d' -> keys d' = keys d.
Proof.
  revert d'. induction d as [|[k' l] d IH]; simpl; intros d' H; [discriminate|].
  destruct (String.eqb k' k).
  - inversion H; reflexivity.
  - destruct (dict_append k x d) as [d''|e]; simpl in H; [|discriminate].
    inversion H; subst; simpl. f_equal. apply IH; reflexivity.
Qed.

Lemma dict_append_Raise {V : Type} (k : string) (x : V) (d : dict (list V)) (e : exn) :
  dict_append k x d = Raise e -> e = KeyError k /\ ~ In k (keys d).
Proof.
  induction d as [|[k' l] d IH]; simpl; intros H.
  - inversion H; tauto.
  - destruct (String.eqb_spec k' k) as [E|E]; [discriminate|].
    destruct (dict_append k x d) as [d''|e'] eqn:A; simpl in H; [discriminate|].
    destruct (IH H) as [-> Hk]. split; [reflexivity|].
    intros [F|F]; [contradiction|exact (Hk F)].
Qed.

Lemma dict_get_In {V : Type} (k : string) (d : dict V) (v : V) :
  dict_get k d = Ok v -> In (k, v) d.
Proof.
  induction d as [|[k' v'] d IH]; simpl; intros H; [discriminate|].
  destruct (String.eqb_spec k' k) as [E|E].
  - inversion H; subst; left; reflexivity.
  - right; apply IH, H.
Qed.

Lemma dict_append_all_in (Q : string -> patron -> Prop) (k : string) (x : patron)
    (d d' : buckets) :
  all_in Q d -> Q k x -> dict_append k x d = Ok d' -> all_in Q d'.
Proof.
  revert d'. induction d as [|[k' l] d IH]; simpl; intros d' Hd Hx H; [discriminate|].
  destruct (String.eqb_spec k' k) as [E|E].
  - inversion H; subst; clear H. intros k0 b p [Hb|Hb] Hp.
    + inversion Hb; subst; clear Hb. apply in_app_or in Hp as [Hp|[Hp|[]]].
      * eapply Hd; [left; reflexivity|exact Hp].
      * subst; exact Hx.
    + eapply Hd; [right; exact Hb|exact Hp].
  - destruct (dict_append k x d) as [d''|e] eqn:A; simpl in H; [|discriminate].
    inversion H; subst; clear H. intros k0 b p [Hb|Hb] Hp.
    + eapply Hd; [left; exact Hb|exact Hp].
    + eapply (IH d''); [|exact Hx|reflexivity|exact Hb|exact Hp].
      intros k1 b1 p1 H1 H2. eapply Hd; [right; exact H1|exact H2].
Qed.

(** ** One iteration of the loop *)

Lemma tier_of_Some (cents days : Z) (k : string) :
  tier_of cents = Some (days, k) ->
  (cents = 300 /\ days = 30 /\ k = "one_month") \/
  (cents = 500 /\ days = 180 /\ k = "six_months") \/
  (cents = 1500 /\ days = 365 /\ k = "one_year").
Proof.
  unfold tier_of.
  destruct (Z.eqb_spec cents 300); [intros H; inversion H; tauto|].
  destruct (Z.eqb_spec cents 500); [intros H; inversion H; tauto|].
  destruct (Z.eqb_spec cents 1500); [intros H; inversion H; tauto|].
  discriminate.
Qed.

Lemma tier_of_key (cents days : Z) (k : string) :
  tier_of cents = Some (days, k) -> In k (keys empty_categories).
Proof.
  intros H. apply tier_of_Some in H as [ (_ & _ & ->) | [ (_ & _ & ->) | (_ & _ & ->) ] ];
    simpl; tauto.
Qed.

Lemma is_empty_false (s : string) : Str.is_empty s = false -> s <> "".
Proof. destruct s; [discriminate|intros _; discriminate]. Qed.

Lemma is_empty_true (s : string) : Str.is_empty s = true -> s = "".
Proof. destruct s; [reflexivity|discriminate]. Qed.

Lemma is_eligible_Ok (now : datetime.t) (last_charge : string) (days : Z) (b : bool) :
  is_eligible now last_charge days = Ok b ->
  exists charge_date eligible_until,
    parse_charge_date last_charge = Ok charge_date /\
    datetime.add_days charge_date days = Ok eligible_until /\
    datetime.gt eligible_until now = Ok b.
Proof.
  unfold is_eligible.
  destruct (parse_charge_date last_charge) as [cd|e] eqn:P; simpl; [|discriminate].
  destruct (datetime.add_days cd days) as [eu|e] eqn:A; simpl; [|discriminate].
  intros H. exists cd, eu. repeat split; [exact A|exact H].
Qed.

(** An iteration that ends normally leaves the buckets as they were or
    appends the patron, who then qualifies, to the bucket of its tier. *)
Lemma categorize_patron_Ok (now : datetime.t) (cats cats' : buckets) (p : patron)
    (out : list line) :
  categorize_patron now cats p = (out, Ok cats') ->
  cats' = cats \/
  exists k, qualifies now k p /\ dict_append k p cats = Ok cats'.
Proof.
  unfold categorize_patron.
  destruct (tier_of (pledge_amount_cents p)) as [[days k]|] eqn:T;
    [|intros H; inversion H; auto].
  destruct (Str.is_empty (last_payment_timestamp p)) eqn:E;
    [intros H; inversion H; auto|].
  destruct (is_eligible now (last_payment_timestamp p) days) as [[|]|e] eqn:G; simpl.
  - destruct (dict_append k p cats) as [d|e] eqn:A.
    + intros H; inversion H; subst. right. exists k. split; [|exact A].
      apply is_eligible_Ok in G as (cd & eu & G1 & G2 & G3).
      exists days, cd, eu. repeat split; auto using is_empty_false.
    + destruct (is_ValueError_or_TypeError e); intros H; inversion H; auto.
  - intros H; inversion H; auto.
  - destruct (is_ValueError_or_TypeError e); intros H; inversion H; auto.
Qed.

Lemma is_eligible_Raise (now : datetime.t) (last_charge : string) (days : Z) (e : exn) :
  is_eligible now last_charge days = Raise e ->
  e = ValueError \/ e = OverflowError \/ e = TypeError.
Proof.
  unfold is_eligible, parse_charge_date, or_ValueError, datetime.add_days, datetime.gt.
  destruct (Str.contains "T" last_charge).
  - destruct (datetime.fromisoformat _) as [cd|]; simpl; [|intros H; inversion H; auto].
    destruct ((0 <? _) && _); [destruct (datetime.ord2ymd _) as [[y m] d]|]; simpl;
      [|intros H; inversion H; auto].
    destruct (datetime.tzinfo cd), (datetime.tzinfo now); intros H; inversion H; auto.
  - destruct (datetime.strptime_ymd _) as [cd|]; simpl; [|intros H; inversion H; auto].
    destruct ((0 <? _) && _); [destruct (datetime.ord2ymd _) as [[y m] d]|]; simpl;
      [|intros H; inversion H; auto].
    destruct (datetime.tzinfo cd), (datetime.tzinfo now); intros H; inversion H; auto.
Qed.

(** The only exceptions that leave an iteration are the overflow of the
    date and a missing bucket. *)
Lemma categorize_patron_Raise (now : datetime.t) (cats : buckets) (p : patron)
    (out : list line) (e : exn) :
  categorize_patron now cats p = (out, Raise e) ->
  out = [] /\
  (e = OverflowError \/
   exists days k, tier_of (pledge_amount_cents p) = Some (days, k) /\ ~ In k (keys cats)).
Proof.
  unfold categorize_patron.
  destruct (tier_of (pledge_amount_cents p)) as [[days k]|] eqn:T; [|discriminate].
  destruct (Str.is_empty (last_payment_timestamp p)); [discriminate|].
  destruct (is_eligible now (last_payment_timestamp p) days) as [[|]|e'] eqn:G; simpl.
  - destruct (dict_append k p cats) as [d|e'] eqn:A; [discriminate|].
    apply dict_append_Raise in A as [-> A]. simpl.
    intros H; inversion H; subst. split; [reflexivity|]. right; exists days, k; auto.
  - discriminate.
  - apply is_eligible_Raise in G as [ -> | [ -> | -> ] ]; simpl; intros H; inversion H; auto.
Qed.

(** ** The loop of lines 125-157 *)

Lemma for_patron_cons (now : datetime.t) (p : patron) (ps : list patron) (cats : buckets) :
  for_patron now (p :: ps) cats =
  match categorize_patron now cats p with
  | (out, Ok cats') =>
      let '(out', r) := for_patron now ps cats' in (out ++ out', r)
  | (out, Raise e) => (out, Raise e)
  end.
Proof. reflexivity. Qed.

Lemma for_patron_keys (now : datetime.t) (ps : list patron) :
  forall cats out cats',
    for_patron now ps cats = (out, Ok cats') -> keys cats' = keys cats.
Proof.
  induction ps as [|p ps IH]; intros cats out cats' H.
  - inversion H; reflexivity.
  - rewrite for_patron_cons in H.
    destruct (categorize_patron now cats p) as [o [c1|e]] eqn:C; [|discriminate].
    destruct (for_patron now ps c1) as [o' r] eqn:F. inversion H; subst.
    rewrite (IH _ _ _ F).
    apply categorize_patron_Ok in C as [->|(k & _ & A)]; [reflexivity|].
    exact (dict_append_keys _ _ _ _ A).
Qed.

Lemma for_patron_all_in (Q : string -> patron -> Prop) (now : datetime.t)
    (ps : list patron) :
  forall cats out cats',
    for_patron now ps cats = (out, Ok cats') ->
    all_in Q cats ->
    (forall p k, In p ps -> qualifies now k p -> Q k p) ->
    all_in Q cats'.
Proof.
  induction ps as [|p ps IH]; intros cats out cats' H Hc Hq.
  - inversion H; subst; exact Hc.
  - rewrite for_patron_cons in H.
    destruct (categorize_patron now cats p) as [o [c1|e]] eqn:C; [|discriminate].
    destruct (for_patron now ps c1) as [o' r] eqn:F. inversion H; subst.
    apply (IH _ _ _ F).
    + apply categorize_patron_Ok in C as [->|(k & Hk & A)]; [exact Hc|].
      apply (dict_append_all_in Q k p cats c1 Hc); [|exact A].
      apply Hq; [left; reflexivity|exact Hk].
    + intros q k Hin. apply Hq. right; exact Hin.
Qed.

Lemma for_patron_Raise (now : datetime.t) (ps : list patron) :
  forall cats out e,
    for_patron now ps cats = (out, Raise e) ->
    keys cats = keys empty_categories ->
    e = OverflowError.
Proof.
  induction ps as [|p ps IH]; intros cats out e H Hk.
  - discriminate.
  - rewrite for_patron_cons in H.
    destruct (categorize_patron now cats p) as [o [c1|e1]] eqn:C.
    + destruct (for_patron now ps c1) as [o' r] eqn:F. inversion H; subst.
      apply (IH _ _ _ F).
      apply categorize_patron_Ok in C as [->|(k & _ & A)]; [exact Hk|].
      rewrite (dict_append_keys _ _ _ _ A). exact Hk.
    + inversion H; subst.
      apply categorize_patron_Raise in C as [_ [->|(days & k & T & N)]];
        [reflexivity|].
      exfalso. apply N. rewrite Hk. exact (tier_of_key _ _ _ T).
Qed.

Lemma for_patron_app (now : datetime.t) (ps1 ps2 : list patron) :
  forall cats,
    for_patron now (ps1 ++ ps2) cats =
    match for_patron now ps1 cats with
    | (out, Ok cats') =>
        let '(out', r) := for_patron now ps2 cats' in (out ++ out', r)
    | (out, Raise e) => (out, Raise e)
    end.
Proof.
  induction ps1 as [|p ps1 IH]; intros cats.
  - simpl. destruct (for_patron now ps2 cats); reflexivity.
  - rewrite <- app_comm_cons, !for_patron_cons.
    destruct (categorize_patron now cats p) as [o [c1|e]]; [|reflexivity].
    rewrite IH.
    destruct (for_patron now ps1 c1) as [o1 [c2|e]]; [|reflexivity].
    destruct (for_patron now ps2 c2) as [o2 r]. rewrite app_assoc. reflexivity.
Qed.

(** ** [categorize_patrons] *)

Lemma categorize_patrons_unfold (c : clock) (ps : list patron) :
  categorize_patrons c ps =
  match for_patron (fst (datetime_now c)) ps empty_categories with
  | (out, Ok categories) => (snd (datetime_now c), out, Ok (sort_buckets categories))
  | (out, Raise e) => (snd (datetime_now c), out, Raise e)
  end.
Proof. reflexivity. Qed.

Lemma sort_buckets_keys (cats : buckets) : keys (sort_buckets cats) = keys cats.
Proof.
  unfold keys, sort_buckets. rewrite map_map. apply map_ext. intros [k l]; reflexivity.
Qed.

Lemma sort_buckets_In (cats : buckets) (k : string) (bucket : list patron) :
  In (k, bucket) (sort_buckets cats) ->
  exists raw, In (k, raw) cats /\ bucket = sort_by_key raw.
Proof.
  unfold sort_buckets. intros H. apply in_map_iff in H as ([k' raw] & E & H).
  inversion E; subst. exists raw; auto.
Qed.

Lemma categorize_patrons_Ok (c c' : clock) (ps : list patron) (out : list line)
    (cats : buckets) :
  categorize_patrons c ps = (c', out, Ok cats) ->
  exists raw,
    for_patron (fst (datetime_now c)) ps empty_categories = (out, Ok raw) /\
    cats = sort_buckets raw /\ c' = snd (datetime_now c).
Proof.
  rewrite categorize_patrons_unfold.
  destruct (for_patron _ ps empty_categories) as [o [raw|e]]; intros H;
    inversion H; subst. exists raw; auto.
Qed.

Lemma categorize_patrons_keys (c c' : clock) (ps : list patron) (out : list line)
    (cats : buckets) :
  categorize_patrons c ps = (c', out, Ok cats) ->
  keys cats = ["one_month"; "six_months"; "one_year"]%string.
Proof.
  intros H. apply categorize_patrons_Ok in H as (raw & F & -> & _).
  rewrite sort_buckets_keys, (for_patron_keys _ _ _ _ _ F). reflexivity.
Qed.

Lemma categorize_patrons_all_in (c c' : clock) (ps : list patron) (out : list line)
    (cats : buckets) :
  categorize_patrons c ps = (c', out, Ok cats) ->
  all_in (fun k p => In p ps /\ qualifies (fst (datetime_now c)) k p) cats.
Proof.
  intros H. apply categorize_patrons_Ok in H as (raw & F & -> & _).
  intros k bucket p Hb Hp.
  apply sort_buckets_In in Hb as (l & Hl & ->).
  apply (proj1 (sort_by_key_In _ _)) in Hp.
  assert (A : all_in (fun k p => In p ps /\ qualifies (fst (datetime_now c)) k p) raw).
  { apply (for_patron_all_in _ _ _ _ _ _ F).
    - intros k' l' p' [E|[E|[E|[]]]] Hp'; inversion E; subst; destruct Hp'.
    - intros p' k' Hin Hq; auto. }
  exact (A k l p Hl Hp).
Qed.

Lemma categorize_patrons_sorted (c c' : clock) (ps : list patron) (out : list line)
    (cats : buckets) :
  categorize_patrons c ps = (c', out, Ok cats) ->
  forall k bucket, In (k, bucket) cats -> StronglySorted name_le bucket.
Proof.
  intros H k bucket Hb. apply categorize_patrons_Ok in H as (raw & F & -> & _).
  apply sort_buckets_In in Hb as (l & _ & ->). apply sort_by_key_sorted.
Qed.

(** The only exception that leaves [categorize_patrons] is the overflow
    of line 152. *)
Lemma categorize_patrons_Raise (c c' : clock) (ps : list patron) (out : list line)
    (e : exn) :
  categorize_patrons c ps = (c', out, Raise e) -> e = OverflowError.
Proof.
  rewrite categorize_patrons_unfold.
  destruct (for_patron _ ps empty_categories) as [o [raw|e']] eqn:F; intros H;
    inversion H; subst.
  exact (for_patron_Raise _ _ _ _ _ F eq_refl).
Qed.

(** ** Patrons without a tier *)

Lemma categorize_patron_unknown (now : datetime.t) (cats : buckets) (p : patron) :
  tier_of (pledge_amount_cents p) = None ->
  categorize_patron now cats p =
  ([WarnUnknownPledge (pledge_amount_cents p) (displayed_name p)], Ok cats).
Proof. unfold categorize_patron. intros ->. reflexivity. Qed.

(** A patron without a tier adds its warning to the output and changes
    nothing else. *)
Lemma for_patron_unknown (now : datetime.t) (ps1 ps2 : list patron) (p : patron)
    (cats : buckets) :
  tier_of (pledge_amount_cents p) = None ->
  for_patron now (ps1 ++ p :: ps2) cats =
  match for_patron now ps1 cats with
  | (out, Ok cats') =>
      let '(out', r) := for_patron now ps2 cats' in
      (out ++ WarnUnknownPledge (pledge_amount_cents p) (displayed_name p) :: out', r)
  | (out, Raise e) => (out, Raise e)
  end.
Proof.
  intros T. rewrite for_patron_app.
  destruct (for_patron now ps1 cats) as [o1 [c1|e]]; [|reflexivity].
  rewrite for_patron_cons, (categorize_patron_unknown _ _ _ T).
  destruct (for_patron now ps2 c1) as [o2 r]. reflexivity.
Qed.

Lemma dict_unique {V : Type} (d : dict V) (k : string) (v1 v2 : V) :
  List.NoDup (keys d) -> In (k, v1) d -> In (k, v2) d -> v1 = v2.
Proof.
  induction d as [|[k' v] d IH]; simpl; intros N H1 H2; [contradiction|].
  inversion N as [|? ? Hk Hd]; subst.
  destruct H1 as [H1|H1], H2 as [H2|H2].
  - congruence.
  - inversion H1; subst. exfalso. apply Hk. apply (in_map fst) in H2. exact H2.
  - inversion H2; subst. exfalso. apply Hk. apply (in_map fst) in H1. exact H1.
  - exact (IH Hd H1 H2).
Qed.

Lemma tier_keys_NoDup : List.NoDup ["one_month"; "six_months"; "one_year"]%string.
Proof.
  repeat constructor; simpl; intros H;
    repeat (destruct H as [H|H]; [discriminate|]); exact H.
Qed.

(** C4: the tier of a patron is read off its pledge amount alone, by the
    table 300, 500, 1500; a patron in a bucket has the pledge amount of
    that bucket, so a patron with another amount is in no bucket and no
    patron is in two buckets; a patron with another amount is reported by
    a warning and the buckets are those of the run without that patron. *)
Theorem C4_tier_by_pledge (c c' : clock) (ps : list patron) (out : list line)
    (cats : buckets) :
  categorize_patrons c ps = (c', out, Ok cats) ->
  (tier_of 300 = Some (30, "one_month") /\
   tier_of 500 = Some (180, "six_months") /\
   tier_of 1500 = Some (365, "one_year") /\
   forall cents, cents <> 300 -> cents <> 500 -> cents <> 1500 -> tier_of cents = None) /\
  (forall k bucket p, In (k, bucket) cats -> In p bucket ->
     exists days, tier_of (pledge_amount_cents p) = Some (days, k)) /\
  (forall p, pledge_amount_cents p <> 300 -> pledge_amount_cents p <> 500 ->
     pledge_amount_cents p <> 1500 ->
     forall k bucket, In (k, bucket) cats -> ~ In p bucket) /\
  (forall p k1 bucket1 k2 bucket2,
     In (k1, bucket1) cats -> In p bucket1 ->
     In (k2, bucket2) cats -> In p bucket2 -> k1 = k2 /\ bucket1 = bucket2) /\
  (forall ps1 p ps2, ps = ps1 ++ p :: ps2 ->
     pledge_amount_cents p <> 300 -> pledge_amount_cents p <> 500 ->
     pledge_amount_cents p <> 1500 ->
     In (WarnUnknownPledge (pledge_amount_cents p) (displayed_name p)) out /\
     exists out', categorize_patrons c (ps1 ++ ps2) = (c', out', Ok cats)).
Proof.
  intros H.
  assert (Hnone : forall cents, cents <> 300 -> cents <> 500 -> cents <> 1500 ->
                    tier_of cents = None).
  { intros cents H1 H2 H3. unfold tier_of.
    destruct (Z.eqb_spec cents 300); [contradiction|].
    destruct (Z.eqb_spec cents 500); [contradiction|].
    destruct (Z.eqb_spec cents 1500); [contradiction|reflexivity]. }
  assert (Htier : forall k bucket p, In (k, bucket) cats -> In p bucket ->
                    exists days, tier_of (pledge_amount_cents p) = Some (days, k)).
  { intros k bucket p Hb Hp.
    destruct (categorize_patrons_all_in _ _ _ _ _ H k bucket p Hb Hp)
      as (_ & days & _ & _ & T & _).
    exists days; exact T. }
  split; [repeat split; exact Hnone|].
  split; [exact Htier|].
  split; [|split].
  - intros p H1 H2 H3 k bucket Hb Hp.
    destruct (Htier k bucket p Hb Hp) as (days & T).
    rewrite (Hnone _ H1 H2 H3) in T. discriminate.
  - intros p k1 b1 k2 b2 Hb1 Hp1 Hb2 Hp2.
    destruct (Htier k1 b1 p Hb1 Hp1) as (d1 & T1).
    destruct (Htier k2 b2 p Hb2 Hp2) as (d2 & T2).
    assert (E : k1 = k2) by congruence. subst k2. split; [reflexivity|].
    apply (dict_unique cats k1); [|exact Hb1|exact Hb2].
    rewrite (categorize_patrons_keys _ _ _ _ _ H). exact tier_keys_NoDup.
  - intros ps1 p ps2 -> H1 H2 H3.
    pose proof (Hnone _ H1 H2 H3) as T.
    rewrite categorize_patrons_unfold in H |- *.
    rewrite for_patron_unknown in H by exact T.
    rewrite for_patron_app.
    destruct (for_patron _ ps1 empty_categories) as [o1 [c1|e]]; [|discriminate].
    destruct (for_patron _ ps2 c1) as [o2 [c2|e]]; [|discriminate].
    inversion H; subst. split.
    + apply in_or_app. right; left; reflexivity.
    + eexists; reflexivity.
Qed.

Lemma C4_tier_by_pledge_witness :
  categorize_patrons (Sample.clock_at Sample.noon) Sample.batch
  = (Sample.read_once, Sample.batch_out, Ok Sample.batch_buckets) /\
  (forall k bucket p, In (k, bucket) Sample.batch_buckets -> In p bucket ->
     exists days, tier_of (pledge_amount_cents p) = Some (days, k)).
Proof.
  split; [reflexivity|].
  exact (proj1 (proj2 (C4_tier_by_pledge (Sample.clock_at Sample.noon)
                         Sample.read_once Sample.batch Sample.batch_out
                         Sample.batch_buckets eq_refl))).
Defined.

(** ** The files a run writes *)

Lemma keys_three {V : Type} (d : dict V) (k1 k2 k3 : string) :
  keys d = [k1; k2; k3] -> exists v1 v2 v3, d = [(k1, v1); (k2, v2); (k3, v3)].
Proof.
  destruct d as [|[a1 v1] [|[a2 v2] [|[a3 v3] [|? ?]]]]; simpl; intros H;
    inversion H; subst. exists v1, v2, v3; reflexivity.
Qed.

(** Once the classification returns, the rest of the run cannot fail:
    it writes the three CSV files from the three buckets, then the JSON
    file from all of them. *)
Lemma emit_Ok (w : world) (ps : list patron) (c' : clock) (out : list line)
    (cats : buckets) :
  categorize_patrons (wall_clock w) ps = (c', out, Ok cats) ->
  exists one_month six_months one_year w',
    cats = [("one_month", one_month); ("six_months", six_months);
            ("one_year", one_year)] /\
    emit ps w = (Ok tt, w') /\
    fs w' = emitted one_month six_months one_year (fs w) /\
    wall_clock w' = c'.
Proof.
  intros H.
  destruct (keys_three _ _ _ _ (categorize_patrons_keys _ _ _ _ _ H))
    as (b1 & b2 & b3 & ->).
  exists b1, b2, b3. unfold emit. simpl wall_clock. rewrite H. simpl.
  rewrite app_nil_r. eexists. repeat split.
Qed.

Lemma emit_Raise (w : world) (ps : list patron) (c' : clock) (out : list line)
    (e : exn) :
  categorize_patrons (wall_clock w) ps = (c', out, Raise e) ->
  exists w', emit ps w = (Raise e, w') /\ fs w' = fs w.
Proof.
  intros H. unfold emit. simpl wall_clock. rewrite H. eexists; split; reflexivity.
Qed.

Lemma emitted_lookup (b1 b2 b3 : list patron) (fs : gmap string file) :
  emitted b1 b2 b3 fs !! "_data/one_month_mentions.csv"
    = Some (Csv (fieldnames :: map csv_row b1)) /\
  emitted b1 b2 b3 fs !! "_data/six_months_mentions.csv"
    = Some (Csv (fieldnames :: map csv_row b2)) /\
  emitted b1 b2 b3 fs !! "_data/one_year_mentions.csv"
    = Some (Csv (fieldnames :: map csv_row b3)) /\
  emitted b1 b2 b3 fs !! "_data/patrons.json" = Some (Json (entries_of b1 b2 b3)).
Proof.
  unfold emitted, json_path, path_join, data_dir. simpl String.append.
  repeat split.
  - do 3 (rewrite lookup_insert_ne by discriminate). apply lookup_insert_eq.
  - do 2 (rewrite lookup_insert_ne by discriminate). apply lookup_insert_eq.
  - rewrite lookup_insert_ne by discriminate. apply lookup_insert_eq.
  - apply lookup_insert_eq.
Qed.

Lemma csv_rows_sorted (l : list patron) :
  StronglySorted name_le l -> StronglySorted row_le (map csv_row l).
Proof.
  induction 1 as [|p l Hl IH Hp]; simpl; constructor; [exact IH|].
  apply Forall_map. eapply List.Forall_impl; [|exact Hp].
  intros q Hq. exact Hq.
Qed.

Lemma gt_naive (a b : datetime.t) :
  datetime.tzinfo b = None -> datetime.gt a b = Ok true ->
  datetime.tzinfo a = None /\ datetime.wall_micros b < datetime.wall_micros a.
Proof.
  unfold datetime.gt. intros ->. destruct (datetime.tzinfo a); [discriminate|].
  intros H. inversion H as [E]. split; [reflexivity|]. apply Z.ltb_lt. exact E.
Qed.

Lemma files_cases (k path : string) :
  In (k, path) files ->
  (k = "one_month" /\ path = "_data/one_month_mentions.csv") \/
  (k = "six_months" /\ path = "_data/six_months_mentions.csv") \/
  (k = "one_year" /\ path = "_data/one_year_mentions.csv").
Proof.
  intros [E|[E|[E|[]]]]; inversion E; auto.
Qed.

(** C5: a patron is in a bucket only if its timestamp is not empty and
    parses, and the parsed moment plus the window of the tier is strictly
    after the one reading of the clock that the classification takes; a
    patron whose timestamp is empty or does not parse is in no bucket, and
    the files of the run hold the buckets and nothing else. *)
Theorem C5_eligibility (w : world) (ps : list patron) (c' : clock) (out : list line)
    (cats : buckets) :
  categorize_patrons (wall_clock w) ps = (c', out, Ok cats) ->
  (reads c' = S (reads (wall_clock w)) /\ readings c' = readings (wall_clock w)) /\
  (forall k bucket p, In (k, bucket) cats -> In p bucket ->
     last_payment_timestamp p <> "" /\
     exists days charge_date eligible_until,
       tier_of (pledge_amount_cents p) = Some (days, k) /\
       parse_charge_date (last_payment_timestamp p) = Ok charge_date /\
       datetime.add_days charge_date days = Ok eligible_until /\
       datetime.gt eligible_until (fst (datetime_now (wall_clock w))) = Ok true /\
       datetime.wall_micros (fst (datetime_now (wall_clock w)))
         < datetime.wall_micros eligible_until) /\
  (forall p,
     last_payment_timestamp p = "" \/
     (exists e, parse_charge_date (last_payment_timestamp p) = Raise e) ->
     forall k bucket, In (k, bucket) cats -> ~ In p bucket) /\
  (exists one_month six_months one_year w',
     cats = [("one_month", one_month); ("six_months", six_months);
             ("one_year", one_year)] /\
     emit ps w = (Ok tt, w') /\
     fs w' = emitted one_month six_months one_year (fs w)).
Proof.
  intros H.
  assert (Hq : forall k bucket p, In (k, bucket) cats -> In p bucket ->
                 qualifies (fst (datetime_now (wall_clock w))) k p).
  { intros k bucket p Hb Hp.
    exact (proj2 (categorize_patrons_all_in _ _ _ _ _ H k bucket p Hb Hp)). }
  split; [|split; [|split]].
  - apply categorize_patrons_Ok in H as (raw & _ & _ & ->). split; reflexivity.
  - intros k bucket p Hb Hp.
    destruct (Hq k bucket p Hb Hp) as (days & cd & eu & T & N & P & A & G).
    split; [exact N|]. exists days, cd, eu. repeat split; try assumption.
    exact (proj2 (gt_naive eu (fst (datetime_now (wall_clock w))) eq_refl G)).
  - intros p Hp k bucket Hb Hin.
    destruct (Hq k bucket p Hb Hin) as (days & cd & eu & T & N & P & A & G).
    destruct Hp as [E|(e & E)]; [exact (N E)|congruence].
  - destruct (emit_Ok _ _ _ _ _ H) as (b1 & b2 & b3 & w' & E & He & Hf & _).
    exists b1, b2, b3, w'. auto.
Qed.

Lemma C5_eligibility_witness :
  categorize_patrons (wall_clock Sample.live) Sample.batch
  = (Sample.read_once, Sample.batch_out, Ok Sample.batch_buckets) /\
  (forall p,
     last_payment_timestamp p = "" \/
     (exists e, parse_charge_date (last_payment_timestamp p) = Raise e) ->
     forall k bucket, In (k, bucket) Sample.batch_buckets -> ~ In p bucket).
Proof.
  split; [reflexivity|].
  exact (proj1 (proj2 (proj2 (C5_eligibility Sample.live Sample.batch
                                Sample.read_once Sample.batch_out
                                Sample.batch_buckets eq_refl)))).
Defined.

(** C6: every bucket that the classification returns is sorted by
    display name without regard to case, and each CSV file of the run
    holds the rows of its bucket in that order. *)
Theorem C6_buckets_sorted (w : world) (ps : list patron) (c' : clock)
    (out : list line) (cats : buckets) :
  categorize_patrons (wall_clock w) ps = (c', out, Ok cats) ->
  (forall k bucket, In (k, bucket) cats -> StronglySorted name_le bucket) /\
  (exists w', emit ps w = (Ok tt, w') /\
     forall k path, In (k, path) files ->
       exists bucket,
         In (k, bucket) cats /\
         fs w' !! path = Some (Csv (fieldnames :: map csv_row bucket)) /\
         StronglySorted row_le (map csv_row bucket)).
Proof.
  intros H. pose proof (categorize_patrons_sorted _ _ _ _ _ H) as S.
  split; [exact S|].
  destruct (emit_Ok _ _ _ _ _ H) as (b1 & b2 & b3 & w' & E & He & Hf & _).
  exists w'. split; [exact He|]. subst cats. rewrite Hf.
  destruct (emitted_lookup b1 b2 b3 (fs w)) as (L1 & L2 & L3 & _).
  intros k path Hk.
  apply files_cases in Hk as [ [-> ->] | [ [-> ->] | [-> ->] ] ].
  - exists b1. split; [simpl; auto|]. split; [exact L1|].
    apply csv_rows_sorted, (S "one_month"). simpl; auto.
  - exists b2. split; [simpl; auto|]. split; [exact L2|].
    apply csv_rows_sorted, (S "six_months"). simpl; auto.
  - exists b3. split; [simpl; auto|]. split; [exact L3|].
    apply csv_rows_sorted, (S "one_year"). simpl; auto.
Qed.

Lemma C6_buckets_sorted_witness :
  categorize_patrons (wall_clock Sample.live) Sample.batch
  = (Sample.read_once, Sample.batch_out, Ok Sample.batch_buckets) /\
  (forall k bucket, In (k, bucket) Sample.batch_buckets ->
     StronglySorted name_le bucket).
Proof.
  split; [reflexivity|].
  exact (proj1 (C6_buckets_sorted Sample.live Sample.batch Sample.read_once
                  Sample.batch_out Sample.batch_buckets eq_refl)).
Defined.

(** ** The combined file *)

Lemma entries_of_In (b1 b2 b3 : list patron) (e : entry) :
  In e (entries_of b1 b2 b3) <->
  exists k bucket p tier,
    In (k, bucket) [("one_month", b1); ("six_months", b2); ("one_year", b3)] /\
    In p bucket /\ dict_get k tier_names = Ok tier /\ e = patron_entry tier p.
Proof.
  unfold entries_of. rewrite !in_app_iff, !in_map_iff. split.
  - intros [(p & <- & Hp)|[(p & <- & Hp)|(p & <- & Hp)]].
    + exists "one_month", b1, p, "NOTUS". simpl; auto.
    + exists "six_months", b2, p, "ZEPHYRUS". simpl; auto 6.
    + exists "one_year", b3, p, "BOREAS". simpl; auto 6.
  - intros (k & bucket & p & tier & Hb & Hp & T & ->).
    destruct Hb as [E|[E|[E|[]]]]; inversion E; subst; simpl in T; inversion T; subst.
    + left; exists p; auto.
    + right; left; exists p; auto.
    + right; right; exists p; auto.
Qed.

(** C3, as amended: every entry of the combined file carries, for a
    patron of some bucket, the member id, the display name, the label
    NOTUS, ZEPHYRUS or BOREAS of that bucket, and the last payment
    timestamp exactly as the patron record holds it; and every patron of
    every bucket has its entry. *)
Theorem C3_json_entries (w : world) (ps : list patron) (c' : clock) (out : list line)
    (cats : buckets) :
  categorize_patrons (wall_clock w) ps = (c', out, Ok cats) ->
  (dict_get "one_month" tier_names = Ok "NOTUS" /\
   dict_get "six_months" tier_names = Ok "ZEPHYRUS" /\
   dict_get "one_year" tier_names = Ok "BOREAS") /\
  exists w' entries,
    emit ps w = (Ok tt, w') /\
    fs w' !! json_path = Some (Json entries) /\
    forall e, In e entries <->
      exists k bucket p tier,
        In (k, bucket) cats /\ In p bucket /\ dict_get k tier_names = Ok tier /\
        e = {| entry_member_id := member_id p;
               entry_displayed_name := displayed_name p;
               entry_tier := tier;
               entry_last_payment_timestamp := last_payment_timestamp p |}.
Proof.
  intros H. split; [repeat split|].
  destruct (emit_Ok _ _ _ _ _ H) as (b1 & b2 & b3 & w' & -> & He & Hf & _).
  exists w', (entries_of b1 b2 b3). split; [exact He|]. split.
  - rewrite Hf. exact (proj2 (proj2 (proj2 (emitted_lookup b1 b2 b3 (fs w))))).
  - intros e. apply entries_of_In.
Qed.

Lemma C3_json_entries_witness :
  categorize_patrons (wall_clock Sample.live) Sample.batch
  = (Sample.read_once, Sample.batch_out, Ok Sample.batch_buckets) /\
  exists w' entries,
    emit Sample.batch Sample.live = (Ok tt, w') /\
    fs w' !! json_path = Some (Json entries) /\
    forall e, In e entries <->
      exists k bucket p tier,
        In (k, bucket) Sample.batch_buckets /\ In p bucket /\
        dict_get k tier_names = Ok tier /\
        e = {| entry_member_id := member_id p;
               entry_displayed_name := displayed_name p;
               entry_tier := tier;
               entry_last_payment_timestamp := last_payment_timestamp p |}.
Proof.
  split; [reflexivity|].
  exact (proj2 (C3_json_entries Sample.live Sample.batch Sample.read_once
                  Sample.batch_out Sample.batch_buckets eq_refl)).
Defined.

(** C3 as stated fails: a patron whose timestamp is a date-time is
    eligible, its entry in the combined file keeps the date-time, which is
    no bare date, while the CSV file of the same run shows the bare
    date. *)
Lemma C3_counterexample :
  exists w',
    main 1 Sample.live = Some (Ok tt, w') /\
    fs w' !! json_path
    = Some (Json [ {| entry_member_id := "m2";
                      entry_displayed_name := "bob";
                      entry_tier := "NOTUS";
                      entry_last_payment_timestamp := "2024-03-15T10:00:00" |} ]) /\
    is_bare_date "2024-03-15T10:00:00" = false /\
    fs w' !! "_data/one_month_mentions.csv"
    = Some (Csv [fieldnames; ["m2"; "bob"; "2024-03-15"]]).
Proof.
  eexists. split; [reflexivity|]. split; [|split]; vm_compute; reflexivity.
Qed.

(** ** A run without patrons *)

Lemma fetch_fs (fuel : nat) (w w1 : world) (r : result (list patron)) :
  fetch fuel w = Some (r, w1) -> fs w1 = fs w /\ wall_clock w1 = wall_clock w.
Proof.
  unfold fetch.
  destruct (load_config (environ w) (dotenv w) CONFIG_FILE) as [o [t cid]].
  destruct (get_patrons fuel _ t cid) as [[o' r']|]; [|discriminate].
  intros H; inversion H; subst; split; reflexivity.
Qed.

(** C1, as amended: when the fetch yields no patron, the run writes the
    combined file with an empty list, writes nothing else (no CSV file is
    created or changed), and returns normally. *)
Theorem C1_no_patrons (fuel : nat) (w w1 : world) :
  fetch fuel w = Some (Ok [], w1) ->
  exists w',
    main fuel w = Some (Ok tt, w') /\
    fs w' = <[json_path := Json []]> (fs w) /\
    fs w' !! json_path = Some (Json []) /\
    (forall path, path <> json_path -> fs w' !! path = fs w !! path) /\
    (forall k path, In (k, path) files -> fs w' !! path = fs w !! path).
Proof.
  intros H. destruct (fetch_fs _ _ _ _ H) as [Hf _].
  unfold main. rewrite H. eexists. split; [reflexivity|].
  simpl fs. rewrite Hf.
  split; [reflexivity|]. split; [apply lookup_insert_eq|]. split.
  - intros path Hp. apply lookup_insert_ne. congruence.
  - intros k path Hk. apply lookup_insert_ne.
    apply files_cases in Hk as [ [_ ->] | [ [_ ->] | [_ ->] ] ]; discriminate.
Qed.

Lemma C1_no_patrons_witness :
  fetch 0 Sample.bare
  = Some (Ok [], print [Fetching; ErrorTokenNotSet] Sample.bare) /\
  exists w',
    main 0 Sample.bare = Some (Ok tt, w') /\
    fs w' = <[json_path := Json []]> (fs Sample.bare) /\
    fs w' !! json_path = Some (Json []) /\
    (forall path, path <> json_path -> fs w' !! path = fs Sample.bare !! path) /\
    (forall k path, In (k, path) files -> fs w' !! path = fs Sample.bare !! path).
Proof.
  split; [reflexivity|].
  exact (C1_no_patrons 0 Sample.bare (print [Fetching; ErrorTokenNotSet] Sample.bare)
           eq_refl).
Defined.

(** C1 as stated fails: without credentials the fetch yields no patron
    and the run returns normally, yet no CSV file holding the header
    exists afterwards. *)
Lemma C1_counterexample :
  fetch 0 Sample.bare
  = Some (Ok [], print [Fetching; ErrorTokenNotSet] Sample.bare) /\
  exists w',
    main 0 Sample.bare = Some (Ok tt, w') /\
    fs w' !! json_path = Some (Json []) /\
    fs w' !! "_data/one_month_mentions.csv" = None /\
    fs w' !! "_data/six_months_mentions.csv" = None /\
    fs w' !! "_data/one_year_mentions.csv" = None.
Proof.
  split; [reflexivity|]. eexists. split; [reflexivity|].
  repeat split; vm_compute; reflexivity.
Qed.

(** ** Timestamps with an offset *)

Lemma add_days_tzinfo (d d' : datetime.t) (n : Z) :
  datetime.add_days d n = Ok d' -> datetime.tzinfo d' = datetime.tzinfo d.
Proof.
  unfold datetime.add_days.
  destruct ((0 <? _) && _); [|discriminate].
  destruct (datetime.ord2ymd _) as [[y m] dd]. intros H; inversion H; reflexivity.
Qed.

(** No patron whose timestamp parses to an aware value is in a bucket:
    line 153 compares it with the naive reading of the clock. *)
Lemma aware_never_eligible (c c' : clock) (ps : list patron) (out : list line)
    (cats : buckets) (k : string) (bucket : list patron) (p : patron)
    (charge_date : datetime.t) :
  categorize_patrons c ps = (c', out, Ok cats) ->
  In (k, bucket) cats -> In p bucket ->
  parse_charge_date (last_payment_timestamp p) = Ok charge_date ->
  datetime.tzinfo charge_date = None.
Proof.
  intros H Hb Hp P.
  destruct (categorize_patrons_all_in _ _ _ _ _ H k bucket p Hb Hp)
    as (_ & days & cd & eu & _ & _ & P' & A & G).
  rewrite P in P'. inversion P'; subst cd.
  rewrite <- (add_days_tzinfo _ _ _ A).
  exact (proj1 (gt_naive eu (fst (datetime_now c)) eq_refl G)).
Qed.

(** C2 at a failing input: Ann pledges 300 cents and paid on
    2024-03-15T10:00:00Z; at noon on 2024-03-20 her thirty days are not
    over, but the comparison of line 153 raises [TypeError], line 155
    catches it, and she is in no bucket. *)
Theorem C2_trailing_Z_dropped :
  exists charge_date eligible_until,
    tier_of (pledge_amount_cents Sample.ann) = Some (30, "one_month") /\
    Str.replace "Z" "+00:00" (last_payment_timestamp Sample.ann)
    = "2024-03-15T10:00:00+00:00" /\
    parse_charge_date (last_payment_timestamp Sample.ann) = Ok charge_date /\
    datetime.tzinfo charge_date = Some 0 /\
    datetime.add_days charge_date 30 = Ok eligible_until /\
    datetime.wall_micros Sample.noon < datetime.wall_micros eligible_until /\
    datetime.gt eligible_until Sample.noon = Raise TypeError /\
    categorize_patrons (Sample.clock_at Sample.noon) [Sample.ann]
    = (Sample.read_once,
       [WarnParseDate "Ann" "2024-03-15T10:00:00Z" TypeError],
       Ok [("one_month", []); ("six_months", []); ("one_year", [])]).
Proof.
  do 2 eexists. repeat split; vm_compute; reflexivity.
Qed.

(** ** The overflow of line 152 *)

(** C10 at a failing input: dora pledges 300 cents and her timestamp is
    9999-12-31; thirty days later is past the last date, line 152 raises
    [OverflowError], line 155 does not catch it, and [categorize_patrons]
    returns no mapping. *)
Theorem C10_overflow_escapes :
  tier_of (pledge_amount_cents Sample.dora) = Some (30, "one_month") /\
  parse_charge_date (last_payment_timestamp Sample.dora)
  = Ok (datetime.mk 9999 12 31 0 0 0 0 None) /\
  datetime.add_days (datetime.mk 9999 12 31 0 0 0 0 None) 30 = Raise OverflowError /\
  is_ValueError_or_TypeError OverflowError = false /\
  categorize_patrons (Sample.clock_at Sample.noon) [Sample.dora]
  = (Sample.read_once, [], Raise OverflowError).
Proof.
  repeat split; vm_compute; reflexivity.
Qed.

(** What holds of C10: when [categorize_patrons] returns, the mapping
    has the three tier keys, in the order of line 119, and every patron of
    a bucket is a patron of the input. *)
Lemma categorize_patrons_shape (c c' : clock) (ps : list patron) (out : list line)
    (cats : buckets) :
  categorize_patrons c ps = (c', out, Ok cats) ->
  keys cats = ["one_month"; "six_months"; "one_year"]%string /\
  forall k bucket p, In (k, bucket) cats -> In p bucket -> In p ps.
Proof.
  intros H. split; [exact (categorize_patrons_keys _ _ _ _ _ H)|].
  intros k bucket p Hb Hp.
  exact (proj1 (categorize_patrons_all_in _ _ _ _ _ H k bucket p Hb Hp)).
Qed.

(** It returns whenever no date of the input overflows; the empty list
    is such an input. *)
Lemma categorize_patrons_returns (c : clock) (ps : list patron) :
  (forall p days k charge_date,
     In p ps -> tier_of (pledge_amount_cents p) = Some (days, k) ->
     parse_charge_date (last_payment_timestamp p) = Ok charge_date ->
     datetime.add_days charge_date days <> Raise OverflowError) ->
  exists out cats, categorize_patrons c ps = (snd (datetime_now c), out, Ok cats).
Proof.
  intros Hno. rewrite categorize_patrons_unfold.
  assert (G : forall cats, keys cats = keys empty_categories ->
                exists out cats', for_patron (fst (datetime_now c)) ps cats = (out, Ok cats')).
  { induction ps as [|p ps IH]; intros cats Hk.
    - exists [], cats; reflexivity.
    - rewrite for_patron_cons.
      destruct (categorize_patron _ cats p) as [o [c1|e]] eqn:C.
      + destruct (IH (fun q d k cd Hq => Hno q d k cd (or_intror Hq)) c1)
          as (o' & c2 & F).
        { apply categorize_patron_Ok in C as [->|(k & _ & A)]; [exact Hk|].
          rewrite (dict_append_keys _ _ _ _ A). exact Hk. }
        rewrite F. eexists _, _; reflexivity.
      + exfalso. pose proof C as C'.
        apply categorize_patron_Raise in C as [_ [->|(days & k & T & N)]].
        * revert C'. unfold categorize_patron.
          destruct (tier_of (pledge_amount_cents p)) as [[days k]|] eqn:T;
            [|discriminate].
          destruct (Str.is_empty _); [discriminate|].
          unfold is_eligible.
          destruct (parse_charge_date _) as [cd|e] eqn:P; simpl.
          -- destruct (datetime.add_days cd days) as [eu|e] eqn:A; simpl.
             ++ unfold datetime.gt.
                destruct (datetime.tzinfo eu), (datetime.tzinfo _); simpl;
                  try discriminate;
                  try (destruct (_ <? _); simpl; [|discriminate];
                       destruct (dict_append k p cats) as [d|e] eqn:D;
                       [discriminate|];
                       apply dict_append_Raise in D as [-> _]; discriminate).
             ++ intros _. apply (Hno p days k cd (or_introl eq_refl) T P).
                rewrite A. f_equal.
                unfold datetime.add_days in A.
                destruct ((0 <? _) && _);
                  [destruct (datetime.ord2ymd _) as [[? ?] ?]; discriminate|].
                inversion A; reflexivity.
          -- unfold parse_charge_date, or_ValueError in P.
             destruct (Str.contains _ _);
               [destruct (datetime.fromisoformat _)|destruct (datetime.strptime_ymd _)];
               inversion P; subst; discriminate.
        * apply N. rewrite Hk. exact (tier_of_key _ _ _ T). }
  destruct (G empty_categories eq_refl) as (out & cats & ->).
  eexists _, _; reflexivity.
Qed.

(** ** The timestamp column *)

Lemma digit_char_digit (d : Z) : Str.digit (Str.digit_char d) = Some (d mod 10).
Proof.
  unfold Str.digit, Str.digit_char.
  pose proof (Z.mod_pos_bound d 10 ltac:(lia)) as B.
  rewrite N_ascii_embedding by lia.
  replace ((48 <=? Z.to_N (48 + d mod 10))%N) with true
    by (symmetry; apply N.leb_le; lia).
  replace ((Z.to_N (48 + d mod 10) <=? 57)%N) with true
    by (symmetry; apply N.leb_le; lia).
  simpl. f_equal. lia.
Qed.

Lemma digit_char_not_hyphen (d : Z) : Ascii.eqb (Str.digit_char d) "-" = false.
Proof.
  apply Ascii.eqb_neq. intros E.
  pose proof (digit_char_digit d) as D. rewrite E in D. discriminate.
Qed.

(** What [strftime] prints is a bare date. *)
Lemma strftime_ymd_bare (d : datetime.t) : is_bare_date (datetime.strftime_ymd d) = true.
Proof.
  unfold datetime.strftime_ymd, Str.pad4, Str.pad2, is_bare_date. simpl.
  rewrite !digit_char_digit. simpl. rewrite !digit_char_digit. simpl.
  rewrite !digit_char_digit. reflexivity.
Qed.

Lemma digit_not_T (a : ascii) (d : Z) : Str.digit a = Some d -> Ascii.eqb a "T" = false.
Proof.
  intros D. apply Ascii.eqb_neq. intros ->. discriminate.
Qed.

Lemma digits_no_T (n : nat) :
  forall acc s v r, Str.digits n acc s = Some (v, r) ->
    Str.contains "T" s = Str.contains "T" r.
Proof.
  induction n as [|n IH]; intros acc s v r; simpl.
  - intros H; inversion H; reflexivity.
  - destruct s as [|a s]; [discriminate|].
    destruct (Str.digit a) as [d|] eqn:D; [|discriminate].
    intros H. simpl. rewrite (digit_not_T _ _ D). exact (IH _ _ _ _ H).
Qed.

Lemma expect_hyphen_no_T (s r : string) :
  Str.expect "-" s = Some r -> Str.contains "T" s = Str.contains "T" r.
Proof.
  destruct s as [|a s]; simpl; [discriminate|].
  destruct (Ascii.eqb_spec a "-") as [->|]; [|discriminate].
  intros H; inversion H; reflexivity.
Qed.

(** A bare date has no ['T']. *)
Lemma bare_date_no_T (s : string) : is_bare_date s = true -> Str.contains "T" s = false.
Proof.
  unfold is_bare_date, opt_bind.
  destruct (Str.digits 4 0 s) as [[y r1]|] eqn:D1; [|discriminate].
  destruct (Str.expect "-" r1) as [r2|] eqn:E1; [|discriminate].
  destruct (Str.digits 2 0 r2) as [[m r3]|] eqn:D2; [|discriminate].
  destruct (Str.expect "-" r3) as [r4|] eqn:E2; [|discriminate].
  destruct (Str.digits 2 0 r4) as [[d r5]|] eqn:D3; [|discriminate].
  destruct r5; [|discriminate]. intros _.
  rewrite (digits_no_T _ _ _ _ _ D1), (expect_hyphen_no_T _ _ E1),
    (digits_no_T _ _ _ _ _ D2), (expect_hyphen_no_T _ _ E2),
    (digits_no_T _ _ _ _ _ D3).
  reflexivity.
Qed.

(** A value that a parser returns has passed the checks of the
    constructor. *)
Lemma make_valid (y m d hh mi ss us : Z) (tz : option Z) (dt : datetime.t) :
  of_result (datetime.make y m d hh mi ss us tz) = Some dt ->
  datetime.valid dt = true.
Proof.
  unfold datetime.make.
  destruct (datetime.valid (datetime.mk y m d hh mi ss us tz)) eqn:V; simpl;
    [|discriminate].
  intros H; inversion H; subst. exact V.
Qed.

Lemma fromisoformat_valid (s : string) (dt : datetime.t) :
  datetime.fromisoformat s = Some dt -> datetime.valid dt = true.
Proof.
  unfold datetime.fromisoformat, opt_bind.
  destruct (Str.digits 4 0 s) as [[y r1]|]; [|discriminate].
  destruct (Str.expect "-" r1) as [r2|]; [|discriminate].
  destruct (Str.digits 2 0 r2) as [[m r3]|]; [|discriminate].
  destruct (Str.expect "-" r3) as [r4|]; [|discriminate].
  destruct (Str.digits 2 0 r4) as [[d r5]|]; [|discriminate].
  destruct r5 as [|sep tstr]; [apply make_valid|].
  destruct (datetime.split_sign tstr) as [timestr zone].
  destruct (datetime.parse_hh_mm_ss_ff timestr) as [[[[hh mi] ss] us]|];
    [|discriminate].
  destruct zone as [[negative tzstr]|]; [|apply make_valid].
  destruct (datetime.parse_offset negative tzstr); [apply make_valid|discriminate].
Qed.

Lemma valid_date_range (dt : datetime.t) :
  datetime.valid dt = true ->
  1 <= datetime.year dt <= 9999 /\
  1 <= datetime.month dt <= 12 /\
  1 <= datetime.day dt <= 31.
Proof.
  unfold datetime.valid, datetime.in_range, datetime.MINYEAR, datetime.MAXYEAR.
  rewrite !andb_true_iff, !Z.leb_le.
  intros ((((((([Y1 Y2] & [M1 M2]) & [D1 D2]) & _) & _) & _) & _) & _).
  repeat split; try assumption.
  unfold datetime.days_in_month in D2.
  destruct (datetime.month dt =? 2);
    [destruct (datetime.is_leap (datetime.year dt)); lia|].
  destruct ((datetime.month dt =? 4) || (datetime.month dt =? 6)
            || (datetime.month dt =? 9) || (datetime.month dt =? 11)); lia.
Qed.

Lemma digits4_read (y : Z) (r : string) :
  0 <= y <= 9999 ->
  Str.digits 4 0
    (String (Str.digit_char (y / 1000)) (String (Str.digit_char (y / 100))
       (String (Str.digit_char (y / 10)) (String (Str.digit_char y) r))))
  = Some (y, r).
Proof.
  intros B. cbn [Str.digits]. rewrite !digit_char_digit.
  f_equal. f_equal. Z.div_mod_to_equations. lia.
Qed.

Lemma digits2_read (m : Z) (r : string) :
  0 <= m <= 99 ->
  Str.digits 2 0 (String (Str.digit_char (m / 10)) (String (Str.digit_char m) r))
  = Some (m, r).
Proof.
  intros B. cbn [Str.digits]. rewrite !digit_char_digit.
  f_equal. f_equal. Z.div_mod_to_equations. lia.
Qed.

(** What [strftime] prints spells the year, the month and the day of
    the value. *)
Lemma strftime_ymd_read (dt : datetime.t) :
  datetime.valid dt = true ->
  read_bare_date (datetime.strftime_ymd dt)
  = Some (datetime.year dt, datetime.month dt, datetime.day dt).
Proof.
  intros V. apply valid_date_range in V as (Y & M & D).
  unfold datetime.strftime_ymd, Str.pad4, Str.pad2, read_bare_date, opt_bind.
  cbv beta iota fix delta [String.append].
  rewrite digits4_read by lia. cbn [Str.expect Ascii.eqb Bool.eqb].
  rewrite digits2_read by lia. cbn [Str.expect Ascii.eqb Bool.eqb].
  rewrite digits2_read by lia. reflexivity.
Qed.

(** C7: the rows that [write_csv] writes carry the timestamp as
    follows.  The date-time 2024-03-15T10:00:00Z becomes 2024-03-15, as
    2025-06-01T00:00:00Z becomes 2025-06-01 and 2023-12-31T23:59:59-05:00
    becomes 2023-12-31; in general a timestamp with a ['T'] that parses
    (to a year from 1000 on, where [%Y] prints four digits on every
    platform) becomes a bare date that spells the year, the month and the
    day of the parsed value; a bare date, as every timestamp without a
    ['T'], is written as it is; and a timestamp that does not parse is
    written as it is. *)
Theorem C7_csv_timestamp :
  (forall filename patrons fs,
     write_csv filename patrons fs !! filename
     = Some (Csv (fieldnames :: map csv_row patrons))) /\
  (forall p, csv_row p = [member_id p; displayed_name p;
                          format_timestamp (last_payment_timestamp p)]) /\
  format_timestamp "2024-03-15T10:00:00Z" = "2024-03-15" /\
  format_timestamp "2025-06-01T00:00:00Z" = "2025-06-01" /\
  format_timestamp "2023-12-31T23:59:59-05:00" = "2023-12-31" /\
  format_timestamp "2024-03-15" = "2024-03-15" /\
  (forall ts dt,
     Str.contains "T" ts = true ->
     datetime.fromisoformat (Str.replace "Z" "+00:00" ts) = Some dt ->
     1000 <= datetime.year dt ->
     is_bare_date (format_timestamp ts) = true /\
     read_bare_date (format_timestamp ts)
     = Some (datetime.year dt, datetime.month dt, datetime.day dt)) /\
  (forall ts, is_bare_date ts = true -> format_timestamp ts = ts) /\
  (forall ts, Str.contains "T" ts = false -> format_timestamp ts = ts) /\
  (forall ts,
     datetime.fromisoformat (Str.replace "Z" "+00:00" ts) = None ->
     format_timestamp ts = ts).
Proof.
  split; [intros; apply lookup_insert_eq|].
  split; [reflexivity|].
  split; [reflexivity|].
  split; [reflexivity|].
  split; [reflexivity|].
  split; [reflexivity|].
  split; [|split; [|split]].
  - intros ts dt HT P _. unfold format_timestamp. rewrite HT, P.
    split; [apply strftime_ymd_bare|].
    apply strftime_ymd_read. exact (fromisoformat_valid _ _ P).
  - intros ts B. unfold format_timestamp. rewrite (bare_date_no_T _ B). reflexivity.
  - intros ts HT. unfold format_timestamp. rewrite HT. reflexivity.
  - intros ts P. unfold format_timestamp. rewrite P.
    destruct (Str.contains "T" ts); reflexivity.
Qed.

Lemma C7_csv_timestamp_witness :
  (Str.contains "T" "2021-11-30T10:00:00.000+00:00" = true /\
   datetime.fromisoformat (Str.replace "Z" "+00:00" "2021-11-30T10:00:00.000+00:00")
   = Some (datetime.mk 2021 11 30 10 0 0 0 (Some 0)) /\
   1000 <= 2021) /\
  read_bare_date (format_timestamp "2021-11-30T10:00:00.000+00:00")
  = Some (2021, 11, 30) /\
  format_timestamp "2021-11-30T10:00:00.000+00:00" = "2021-11-30" /\
  (is_bare_date "2024-3-5" = false /\ Str.contains "T" "2024-3-5" = false) /\
  format_timestamp "2024-3-5" = "2024-3-5" /\
  datetime.fromisoformat (Str.replace "Z" "+00:00" "Tuesday") = None /\
  format_timestamp "Tuesday" = "Tuesday".
Proof.
  destruct C7_csv_timestamp as (_ & _ & _ & _ & _ & _ & Hparse & _ & HnoT & Hfail).
  split; [split; [reflexivity|split; [reflexivity|vm_compute; discriminate]]|].
  split.
  { exact (proj2 (Hparse "2021-11-30T10:00:00.000+00:00"
                    (datetime.mk 2021 11 30 10 0 0 0 (Some 0))
                    eq_refl eq_refl ltac:(vm_compute; discriminate))). }
  split; [reflexivity|].
  split; [split; reflexivity|].
  split; [exact (HnoT "2024-3-5" eq_refl)|].
  split; [reflexivity|].
  exact (Hfail "Tuesday" eq_refl).
Defined.

(** ** The credentials *)

Lemma environ_get_Some (environ : gmap string string) (k v : string) :
  environ !! k = Some v -> environ_get environ k = PyStr v.
Proof. unfold environ_get. intros ->. reflexivity. Qed.

Lemma truthy_PyStr (v : string) : v <> "" -> truthy (PyStr v) = true.
Proof. destruct v; [congruence|reflexivity]. Qed.

Lemma environ_get_falsy (environ : gmap string string) (k : string) :
  truthy (environ_get environ k) = false -> environ_get environ k = PyStr "".
Proof.
  unfold environ_get. destruct (default "" (environ !! k)); [reflexivity|discriminate].
Qed.

Lemma load_config_env (environ : gmap string string) (exists_ : string -> dotenv_file)
    (config_file : string) :
  truthy (environ_get environ "PATREON_ACCESS_TOKEN") = true ->
  truthy (environ_get environ "PATREON_CAMPAIGN_ID") = true ->
  load_config environ exists_ config_file
  = ([], (environ_get environ "PATREON_ACCESS_TOKEN",
          environ_get environ "PATREON_CAMPAIGN_ID")).
Proof. intros Tt Tc. unfold load_config. cbv zeta. rewrite Tt, Tc. reflexivity. Qed.

Lemma load_config_Missing (environ : gmap string string) (exists_ : string -> dotenv_file)
    (config_file : string) :
  exists_ config_file = Missing ->
  load_config environ exists_ config_file
  = ([], (environ_get environ "PATREON_ACCESS_TOKEN",
          environ_get environ "PATREON_CAMPAIGN_ID")).
Proof.
  unfold load_config. cbv zeta. intros ->.
  destruct (negb (truthy _) || negb (truthy _)); reflexivity.
Qed.

Lemma load_config_Unreadable (environ : gmap string string)
    (exists_ : string -> dotenv_file) (config_file : string) (e : exn) :
  exists_ config_file = Unreadable e ->
  load_config environ exists_ config_file
  = (if truthy (environ_get environ "PATREON_ACCESS_TOKEN")
        && truthy (environ_get environ "PATREON_CAMPAIGN_ID")
     then [] else [WarnConfig config_file e],
     (environ_get environ "PATREON_ACCESS_TOKEN",
      environ_get environ "PATREON_CAMPAIGN_ID")).
Proof.
  unfold load_config. cbv zeta. intros ->.
  destruct (truthy (environ_get environ "PATREON_ACCESS_TOKEN")),
    (truthy (environ_get environ "PATREON_CAMPAIGN_ID")); reflexivity.
Qed.

Lemma load_config_Values (environ : gmap string string) (exists_ : string -> dotenv_file)
    (config_file : string) (config : gmap string pystr) :
  exists_ config_file = Values config ->
  load_config environ exists_ config_file
  = ([], (if truthy (environ_get environ "PATREON_ACCESS_TOKEN")
          then environ_get environ "PATREON_ACCESS_TOKEN"
          else config_get config "PATREON_ACCESS_TOKEN",
          if truthy (environ_get environ "PATREON_CAMPAIGN_ID")
          then environ_get environ "PATREON_CAMPAIGN_ID"
          else config_get config "PATREON_CAMPAIGN_ID")).
Proof.
  unfold load_config. cbv zeta. intros ->.
  destruct (truthy (environ_get environ "PATREON_ACCESS_TOKEN")),
    (truthy (environ_get environ "PATREON_CAMPAIGN_ID")); reflexivity.
Qed.

(** Whatever the file, a value of the environment that is not empty is
    returned, and an empty one is returned unless the file is read. *)
(** Splits an equation between two triples without unfolding their
    components. *)
Ltac triple H :=
  let E1 := fresh "E" in
  let E2 := fresh "E" in
  let E3 := fresh "E" in
  pose proof (f_equal fst H) as E1;
  pose proof (f_equal (fun x => fst (snd x)) H) as E2;
  pose proof (f_equal (fun x => snd (snd x)) H) as E3;
  cbn [fst snd] in E1, E2, E3; clear H; subst.

Lemma load_config_values (environ : gmap string string) (exists_ : string -> dotenv_file)
    (config_file : string) (out : list line) (token campaign_id : pystr) :
  load_config environ exists_ config_file = (out, (token, campaign_id)) ->
  (truthy (environ_get environ "PATREON_ACCESS_TOKEN") = true ->
   token = environ_get environ "PATREON_ACCESS_TOKEN") /\
  (truthy (environ_get environ "PATREON_CAMPAIGN_ID") = true ->
   campaign_id = environ_get environ "PATREON_CAMPAIGN_ID") /\
  ((forall config, exists_ config_file <> Values config) ->
   token = environ_get environ "PATREON_ACCESS_TOKEN" /\
   campaign_id = environ_get environ "PATREON_CAMPAIGN_ID").
Proof.
  intros H. destruct (exists_ config_file) as [|e|config] eqn:X.
  - rewrite (load_config_Missing _ _ _ X) in H. triple H. auto.
  - rewrite (load_config_Unreadable _ _ _ _ X) in H. triple H. auto.
  - rewrite (load_config_Values _ _ _ _ X) in H. triple H.
    split; [intros ->; reflexivity|]. split; [intros ->; reflexivity|].
    intros N. destruct (N config eq_refl).
Qed.

(** X15: [load_config] takes both values from the environment first; a
    value that the environment gives is the value returned, whatever the
    file holds; when both are given the file is not looked at; a value
    still empty is the one the file binds to its key, when the file is
    read; a missing file, and a file on which [dotenv_values] raises,
    leave the values of the environment, the latter with a warning; and a
    value that the environment does not give and whose key the file does
    not list is returned as the empty string.  The function has no failing
    outcome: the one call that can raise stands in the [try] of line 36,
    whose handler catches every [Exception]. *)
Theorem load_config_resolution (environ : gmap string string)
    (exists_ : string -> dotenv_file) (config_file : string)
    (out : list line) (token campaign_id : pystr) :
  load_config environ exists_ config_file = (out, (token, campaign_id)) ->
  (forall v, environ !! "PATREON_ACCESS_TOKEN" = Some v -> v <> "" ->
     token = PyStr v) /\
  (forall v, environ !! "PATREON_CAMPAIGN_ID" = Some v -> v <> "" ->
     campaign_id = PyStr v) /\
  (truthy (environ_get environ "PATREON_ACCESS_TOKEN") = true ->
   truthy (environ_get environ "PATREON_CAMPAIGN_ID") = true ->
   out = [] /\
   forall exists_', load_config environ exists_' config_file
                    = (out, (token, campaign_id))) /\
  (forall config, exists_ config_file = Values config ->
     out = [] /\
     (truthy (environ_get environ "PATREON_ACCESS_TOKEN") = false ->
      token = default (PyStr "") (config !! "PATREON_ACCESS_TOKEN")) /\
     (truthy (environ_get environ "PATREON_CAMPAIGN_ID") = false ->
      campaign_id = default (PyStr "") (config !! "PATREON_CAMPAIGN_ID"))) /\
  (exists_ config_file = Missing ->
     out = [] /\
     token = environ_get environ "PATREON_ACCESS_TOKEN" /\
     campaign_id = environ_get environ "PATREON_CAMPAIGN_ID") /\
  (forall e, exists_ config_file = Unreadable e ->
     token = environ_get environ "PATREON_ACCESS_TOKEN" /\
     campaign_id = environ_get environ "PATREON_CAMPAIGN_ID" /\
     (truthy token = false \/ truthy campaign_id = false ->
      out = [WarnConfig config_file e])) /\
  (truthy (environ_get environ "PATREON_ACCESS_TOKEN") = false ->
   exists_ config_file = Missing \/
   (exists e, exists_ config_file = Unreadable e) \/
   (exists config, exists_ config_file = Values config /\
                   config !! "PATREON_ACCESS_TOKEN" = None) ->
   token = PyStr "") /\
  (truthy (environ_get environ "PATREON_CAMPAIGN_ID") = false ->
   exists_ config_file = Missing \/
   (exists e, exists_ config_file = Unreadable e) \/
   (exists config, exists_ config_file = Values config /\
                   config !! "PATREON_CAMPAIGN_ID" = None) ->
   campaign_id = PyStr "").
Proof.
  intros H. destruct (load_config_values _ _ _ _ _ _ H) as (Vt & Vc & Vn).
  split; [|split; [|split; [|split; [|split; [|split; [|split]]]]]].
  - intros v Hv Hne. rewrite <- (environ_get_Some _ _ _ Hv). apply Vt.
    rewrite (environ_get_Some _ _ _ Hv). exact (truthy_PyStr v Hne).
  - intros v Hv Hne. rewrite <- (environ_get_Some _ _ _ Hv). apply Vc.
    rewrite (environ_get_Some _ _ _ Hv). exact (truthy_PyStr v Hne).
  - intros Tt Tc. rewrite (load_config_env _ _ _ Tt Tc) in H. triple H.
    split; [reflexivity|]. intros exists_'. exact (load_config_env _ _ _ Tt Tc).
  - intros config X. rewrite (load_config_Values _ _ _ _ X) in H.
    triple H. split; [reflexivity|].
    split; intros ->; reflexivity.
  - intros X. rewrite (load_config_Missing _ _ _ X) in H. triple H. auto.
  - intros e X. rewrite (load_config_Unreadable _ _ _ _ X) in H.
    triple H. split; [reflexivity|]. split; [reflexivity|].
    intros [F|F]; rewrite F; [reflexivity|rewrite andb_false_r; reflexivity].
  - intros Tt [X|[(e & X)|(config & X & N)]].
    + rewrite (proj1 (Vn ltac:(congruence))). exact (environ_get_falsy _ _ Tt).
    + rewrite (proj1 (Vn ltac:(congruence))). exact (environ_get_falsy _ _ Tt).
    + rewrite (load_config_Values _ _ _ _ X) in H. triple H.
      rewrite Tt. unfold config_get. rewrite N. reflexivity.
  - intros Tc [X|[(e & X)|(config & X & N)]].
    + rewrite (proj2 (Vn ltac:(congruence))). exact (environ_get_falsy _ _ Tc).
    + rewrite (proj2 (Vn ltac:(congruence))). exact (environ_get_falsy _ _ Tc).
    + rewrite (load_config_Values _ _ _ _ X) in H. triple H.
      rewrite Tc. unfold config_get. rewrite N. reflexivity.
Qed.

Lemma load_config_resolution_witness :
  load_config (<["PATREON_CAMPAIGN_ID" := "42"]> ∅) (fun _ => Sample.half_file)
    CONFIG_FILE
  = ([], (PyStr "from-file", PyStr "42")) /\
  (forall v,
     (<["PATREON_CAMPAIGN_ID" := "42"]> ∅ : gmap string string)
       !! "PATREON_CAMPAIGN_ID" = Some v ->
     v <> "" -> PyStr "42" = PyStr v).
Proof.
  split; [reflexivity|].
  exact (proj1 (proj2 (load_config_resolution (<["PATREON_CAMPAIGN_ID" := "42"]> ∅)
                         (fun _ => Sample.half_file) CONFIG_FILE []
                         (PyStr "from-file") (PyStr "42") eq_refl))).
Defined.

(** C8: a key that the configuration file lists without a value is
    bound to [None] by [dotenv_values], and [.get(key, '')] of lines 39
    and 41 returns what the key is bound to: when the environment leaves
    the value empty, [load_config] returns [None] for it, not the empty
    string of its default, of its annotation [Tuple[str, str]] and of the
    specification.  So it is for the file that holds the token and the
    bare line [PATREON_CAMPAIGN_ID], with an empty environment. *)
Theorem C8_valueless_key_returns_None :
  (forall environ exists_ config_file config,
     exists_ config_file = Values config ->
     (truthy (environ_get environ "PATREON_ACCESS_TOKEN") = false ->
      config !! "PATREON_ACCESS_TOKEN" = Some PyNone ->
      fst (snd (load_config environ exists_ config_file)) = PyNone) /\
     (truthy (environ_get environ "PATREON_CAMPAIGN_ID") = false ->
      config !! "PATREON_CAMPAIGN_ID" = Some PyNone ->
      snd (snd (load_config environ exists_ config_file)) = PyNone)) /\
  load_config ∅ (fun _ => Sample.half_file) CONFIG_FILE
  = ([], (PyStr "from-file", PyNone)) /\
  PyNone <> PyStr "".
Proof.
  split; [|split; [reflexivity|discriminate]].
  intros environ exists_ config_file config X.
  rewrite (load_config_Values _ _ _ _ X). cbn [fst snd].
  split; intros -> N; unfold config_get; rewrite N; reflexivity.
Qed.

(** ** The paginated fetch *)

Lemma while_url_step (fuel : nat) (get : service) (token : string) (url : pystr)
    (params : bool) (acc : list patron) :
  truthy url = true ->
  while_url (S fuel) get token url params acc =
  match get (request_of token url params) with
  | Raise e => Some (Raise e)
  | Ok data =>
      while_url fuel get token (Api.next data) false (acc ++ page_patrons data)
  end.
Proof. simpl. intros ->. reflexivity. Qed.

Lemma while_url_done (fuel : nat) (get : service) (token : string) (url : pystr)
    (params : bool) (acc : list patron) :
  truthy url = false -> while_url fuel get token url params acc = Some (Ok acc).
Proof. destruct fuel; simpl; intros ->; reflexivity. Qed.

Lemma follows_raise (get : service) (token : string) (url url' : pystr)
    (params params' : bool) (pages : list Api.page) (e : exn) :
  follows get token url params pages url' params' ->
  truthy url' = true ->
  get (request_of token url' params') = Raise e ->
  forall fuel acc, (length pages < fuel)%nat ->
    while_url fuel get token url params acc = Some (Raise e).
Proof.
  induction 1 as [url params|url params data pages url' params' T G F IH];
    intros T' G' fuel acc L.
  - destruct fuel as [|fuel]; [inversion L|].
    rewrite while_url_step by exact T'. rewrite G'. reflexivity.
  - destruct fuel as [|fuel]; [inversion L|].
    rewrite while_url_step by exact T. rewrite G.
    apply IH; [exact T'|exact G'|]. simpl in L. apply Nat.succ_lt_mono. exact L.
Qed.

Lemma follows_done (get : service) (token : string) (url url' : pystr)
    (params params' : bool) (pages : list Api.page) :
  follows get token url params pages url' params' ->
  truthy url' = false ->
  forall fuel acc, (length pages <= fuel)%nat ->
    while_url fuel get token url params acc
    = Some (Ok (acc ++ concat (map page_patrons pages))).
Proof.
  induction 1 as [url params|url params data pages url' params' T G F IH];
    intros T' fuel acc L.
  - rewrite while_url_done by exact T'. simpl. rewrite app_nil_r. reflexivity.
  - destruct fuel as [|fuel]; [inversion L|].
    rewrite while_url_step by exact T. rewrite G.
    rewrite (IH T' fuel); [|simpl in L; apply le_S_n; exact L].
    simpl. rewrite app_assoc. reflexivity.
Qed.

(** What the loop returns, it returns along a sequence of pages: all of
    their patrons when the last link is empty, the exception when the
    request after the last page raises. *)
Lemma while_url_inv (fuel : nat) (get : service) (token : string) :
  forall url params acc r,
    while_url fuel get token url params acc = Some r ->
    exists pages url' params',
      follows get token url params pages url' params' /\
      ((truthy url' = false /\ r = Ok (acc ++ concat (map page_patrons pages))) \/
       (truthy url' = true /\ exists e,
          get (request_of token url' params') = Raise e /\ r = Raise e)).
Proof.
  induction fuel as [|fuel IH]; intros url params acc r H.
  - simpl in H. destruct (truthy url) eqn:T; [discriminate|].
    inversion H; subst. exists [], url, params. split; [constructor|].
    left. split; [exact T|]. simpl. rewrite app_nil_r. reflexivity.
  - destruct (truthy url) eqn:T.
    + rewrite while_url_step in H by exact T.
      destruct (get (request_of token url params)) as [data|e] eqn:G.
      * apply IH in H as (pages & url' & params' & F & C).
        exists (data :: pages), url', params'.
        split; [exact (follows_cons _ _ _ _ _ _ _ _ T G F)|].
        destruct C as [(T' & ->)|(T' & e & G' & ->)].
        -- left. split; [exact T'|]. simpl. rewrite app_assoc. reflexivity.
        -- right. split; [exact T'|]. exists e. auto.
      * inversion H; subst. exists [], url, params. split; [constructor|].
        right. split; [exact T|]. exists e. auto.
    + rewrite while_url_done in H by exact T. inversion H; subst.
      exists [], url, params. split; [constructor|].
      left. split; [exact T|]. simpl. rewrite app_nil_r. reflexivity.
Qed.

(** X16: with both credentials set, a [RequestException] at any page (a
    timeout or another transport failure, an error status, a body that
    does not decode) makes the fetch print the error and return the empty
    list, whatever the earlier pages held; and a fetch that returns a list
    returns the empty list after such a failure or, after the last page,
    the patrons of all pages: never those of a proper prefix that a
    failure cut short. *)
Theorem fetch_all_or_nothing (get : service) (PATREON_ACCESS_TOKEN CAMPAIGN_ID : pystr) :
  truthy PATREON_ACCESS_TOKEN = true ->
  truthy CAMPAIGN_ID = true ->
  (forall pages url' params' e,
     follows get (format PATREON_ACCESS_TOKEN) (PyStr (members_url CAMPAIGN_ID)) true
       pages url' params' ->
     truthy url' = true ->
     get (request_of (format PATREON_ACCESS_TOKEN) url' params') = Raise e ->
     is_RequestException e = true ->
     forall fuel, (length pages < fuel)%nat ->
       get_patrons fuel get PATREON_ACCESS_TOKEN CAMPAIGN_ID
       = Some ([ErrorFetching e], Ok [])) /\
  (forall fuel out patrons,
     get_patrons fuel get PATREON_ACCESS_TOKEN CAMPAIGN_ID = Some (out, Ok patrons) ->
     exists pages url' params',
       follows get (format PATREON_ACCESS_TOKEN) (PyStr (members_url CAMPAIGN_ID)) true
         pages url' params' /\
       ((truthy url' = true /\
         exists e, get (request_of (format PATREON_ACCESS_TOKEN) url' params') = Raise e /\
                   is_RequestException e = true /\
                   out = [ErrorFetching e] /\ patrons = []) \/
        (truthy url' = false /\
         patrons = concat (map page_patrons pages) /\
         out = [FetchedPatrons (length patrons)]))).
Proof.
  intros Tt Tc. split.
  - intros pages url' params' e F T' G R fuel L.
    unfold get_patrons. rewrite Tt, Tc. simpl.
    rewrite (follows_raise _ _ _ _ _ _ _ _ F T' G fuel [] L). rewrite R. reflexivity.
  - intros fuel out patrons. unfold get_patrons. rewrite Tt, Tc. simpl.
    destruct (while_url fuel get _ _ true []) as [r|] eqn:W; [|discriminate].
    apply while_url_inv in W as (pages & url' & params' & F & C).
    intros H. exists pages, url', params'. split; [exact F|].
    destruct C as [(T' & ->)|(T' & e & G & ->)].
    + right. simpl in H. inversion H; subst. auto.
    + left. split; [exact T'|]. exists e.
      destruct (is_RequestException e) eqn:R; inversion H; subst. auto.
Qed.

Lemma fetch_all_or_nothing_witness :
  (truthy (PyStr "token") = true /\ truthy (PyStr "42") = true /\
   follows Sample.flaky "token" (PyStr (members_url (PyStr "42"))) true
     [Sample.first_page] (PyStr "https://www.patreon.com/api/oauth2/v2/page2") false /\
   page_patrons Sample.first_page = [Sample.bob] /\
   Sample.flaky (request_of "token"
                   (PyStr "https://www.patreon.com/api/oauth2/v2/page2") false)
   = Raise Timeout) /\
  get_patrons 2 Sample.flaky (PyStr "token") (PyStr "42")
  = Some ([ErrorFetching Timeout], Ok []).
Proof.
  assert (F : follows Sample.flaky "token" (PyStr (members_url (PyStr "42"))) true
                [Sample.first_page]
                (PyStr "https://www.patreon.com/api/oauth2/v2/page2") false).
  { apply follows_cons with (data := Sample.first_page);
      [reflexivity|reflexivity|apply follows_nil]. }
  split; [split; [reflexivity|split; [reflexivity|split; [exact F|split; reflexivity]]]|].
  exact (proj1 (fetch_all_or_nothing Sample.flaky (PyStr "token") (PyStr "42")
                  eq_refl eq_refl)
           [Sample.first_page] (PyStr "https://www.patreon.com/api/oauth2/v2/page2")
           false Timeout F eq_refl eq_refl eq_refl 2%nat (le_n 2)).
Defined.

(** C9: a response that decodes but lacks a key that lines 88-92 index
    is a malformed response that the handler of line 111 does not catch:
    the [KeyError] is no [RequestException].  With both credentials set
    and a first page that holds an active patron, such a second page makes
    [get_patrons] raise: it prints nothing and returns no list, and [main]
    ends with the exception after its first line of output, with no file
    written, where the specification has the error logged, the empty list
    returned and the run go on. *)
Theorem C9_malformed_page_escapes :
  follows Sample.broken "token" (PyStr (members_url (PyStr "42"))) true
    [Sample.first_page] (PyStr "https://www.patreon.com/api/oauth2/v2/page2") false /\
  page_patrons Sample.first_page = [Sample.bob] /\
  Sample.broken (request_of "token"
                   (PyStr "https://www.patreon.com/api/oauth2/v2/page2") false)
  = Raise (KeyError "attributes") /\
  is_RequestException (KeyError "attributes") = false /\
  get_patrons 2 Sample.broken (PyStr "token") (PyStr "42")
  = Some ([], Raise (KeyError "attributes")) /\
  get_patrons 2 Sample.broken (PyStr "token") (PyStr "42")
  <> Some ([ErrorFetching (KeyError "attributes")], Ok []) /\
  main 2 Sample.cut_off
  = Some (Raise (KeyError "attributes"), print [Fetching] Sample.cut_off) /\
  fs (print [Fetching] Sample.cut_off) = ∅.
Proof.
  split.
  { apply follows_cons with (data := Sample.first_page);
      [reflexivity|reflexivity|apply follows_nil]. }
  split; [reflexivity|]. split; [reflexivity|]. split; [reflexivity|].
  split; [reflexivity|]. split; [discriminate|]. split; reflexivity.
Qed.

(** * Further properties *)

(** ** What the buckets hold *)

Lemma in_bucket_cons (now : datetime.t) (k : string) (p : patron) (ps : list patron) :
  List.filter (in_bucket now k) (p :: ps)
  = List.filter (in_bucket now k) [p] ++ List.filter (in_bucket now k) ps.
Proof. simpl. destruct (in_bucket now k p); reflexivity. Qed.

Lemma categorize_patron_three (now : datetime.t) (a b c : list patron) (p : patron)
    (out : list line) (cats' : buckets) :
  categorize_patron now [("one_month", a); ("six_months", b); ("one_year", c)] p
  = (out, Ok cats') ->
  out = warning_of now p /\ cats' = extended now a b c [p].
Proof.
  unfold extended, categorize_patron, warning_of, in_bucket, bucket_of.
  simpl List.filter.
  destruct (tier_of (pledge_amount_cents p)) as [[days k]|] eqn:T.
  - destruct (Str.is_empty (last_payment_timestamp p)).
    + intros H; inversion H; subst. rewrite !app_nil_r. auto.
    + destruct (is_eligible now (last_payment_timestamp p) days) as [[|]|e]; simpl.
      * apply tier_of_Some in T
          as [ (_ & _ & ->) | [ (_ & _ & ->) | (_ & _ & ->) ] ]; simpl;
          intros H; inversion H; subst; rewrite ?app_nil_r; auto.
      * intros H; inversion H; subst. rewrite !app_nil_r. auto.
      * destruct (is_ValueError_or_TypeError e); intros H; inversion H; subst.
        rewrite !app_nil_r. auto.
  - intros H; inversion H; subst. rewrite !app_nil_r. auto.
Qed.

Lemma extended_app (now : datetime.t) (a b c ps qs : list patron) :
  extended now (a ++ List.filter (in_bucket now "one_month") ps)
    (b ++ List.filter (in_bucket now "six_months") ps)
    (c ++ List.filter (in_bucket now "one_year") ps) qs
  = extended now a b c (ps ++ qs).
Proof. unfold extended. rewrite !List.filter_app, !app_assoc. reflexivity. Qed.

(** The loop appends to each bucket the patrons that belong to it, in
    the order of the input, and prints their warnings in that order. *)
Lemma for_patron_three (now : datetime.t) (ps : list patron) :
  forall a b c out cats',
    for_patron now ps [("one_month", a); ("six_months", b); ("one_year", c)]
    = (out, Ok cats') ->
    out = flat_map (warning_of now) ps /\ cats' = extended now a b c ps.
Proof.
  induction ps as [|p ps IH]; intros a b c out cats' H.
  - inversion H; subst. unfold extended; simpl. rewrite !app_nil_r. auto.
  - rewrite for_patron_cons in H.
    destruct (categorize_patron now _ p) as [o [c1|e]] eqn:C; [|discriminate].
    apply categorize_patron_three in C as [-> ->].
    destruct (for_patron now ps _) as [o' r] eqn:F. inversion H; subst.
    unfold extended in F. apply IH in F as [-> ->]. split; [reflexivity|].
    exact (extended_app now a b c [p] ps).
Qed.

Lemma in_bucket_qualifies (now : datetime.t) (k : string) (p : patron) :
  in_bucket now k p = true <-> qualifies now k p.
Proof.
  unfold in_bucket, bucket_of, qualifies. split.
  - destruct (tier_of (pledge_amount_cents p)) as [[days k']|]; [|discriminate].
    destruct (Str.is_empty (last_payment_timestamp p)) eqn:E; [discriminate|].
    destruct (is_eligible now (last_payment_timestamp p) days) as [[|]|e] eqn:G;
      try discriminate.
    intros K. apply String.eqb_eq in K. subst k'.
    apply is_eligible_Ok in G as (cd & eu & G1 & G2 & G3).
    exists days, cd, eu. repeat split; auto using is_empty_false.
  - intros (days & cd & eu & T & N & P & A & G). rewrite T.
    destruct (Str.is_empty (last_payment_timestamp p)) eqn:E;
      [apply is_empty_true in E; contradiction|].
    unfold is_eligible. rewrite P. simpl. rewrite A. simpl. rewrite G.
    apply String.eqb_refl.
Qed.

(** X1: when the classification returns, each bucket holds exactly the
    patrons of the input that belong to it, every one as often as the
    input has it, sorted by the key of line 161; so a patron that passes
    lines 128-153 is never left out. *)
Theorem buckets_are_the_eligible (c c' : clock) (ps : list patron) (out : list line)
    (cats : buckets) :
  categorize_patrons c ps = (c', out, Ok cats) ->
  cats = [("one_month",
           sort_by_key (List.filter (in_bucket (fst (datetime_now c)) "one_month") ps));
          ("six_months",
           sort_by_key (List.filter (in_bucket (fst (datetime_now c)) "six_months") ps));
          ("one_year",
           sort_by_key (List.filter (in_bucket (fst (datetime_now c)) "one_year") ps))] /\
  (forall k p, In p ps -> qualifies (fst (datetime_now c)) k p ->
     exists bucket, In (k, bucket) cats /\ In p bucket).
Proof.
  intros H. apply categorize_patrons_Ok in H as (raw & F & -> & _).
  apply for_patron_three in F as [_ ->].
  split; [reflexivity|].
  intros k p Hp Hq. pose proof Hq as (days & _ & _ & T & _).
  apply in_bucket_qualifies in Hq.
  exists (sort_by_key (List.filter (in_bucket (fst (datetime_now c)) k) ps)).
  split.
  - apply tier_of_Some in T
      as [ (_ & _ & ->) | [ (_ & _ & ->) | (_ & _ & ->) ] ]; simpl; auto.
  - apply sort_by_key_In, List.filter_In. auto.
Qed.

Lemma buckets_are_the_eligible_witness :
  categorize_patrons (Sample.clock_at Sample.noon) Sample.batch
  = (Sample.read_once, Sample.batch_out, Ok Sample.batch_buckets) /\
  (forall k p, In p Sample.batch ->
     qualifies (fst (datetime_now (Sample.clock_at Sample.noon))) k p ->
     exists bucket, In (k, bucket) Sample.batch_buckets /\ In p bucket).
Proof.
  split; [reflexivity|].
  exact (proj2 (buckets_are_the_eligible (Sample.clock_at Sample.noon)
                  Sample.read_once Sample.batch Sample.batch_out
                  Sample.batch_buckets eq_refl)).
Defined.

(** X2: when the classification returns, its output is the warnings of
    the patrons in the order of the input: one line for a pledge amount
    without a tier, one for a timestamp that does not parse or does not
    compare, and none for a patron that is appended, whose window is
    over, or whose timestamp is empty. *)
Theorem warnings_follow_input (c c' : clock) (ps : list patron) (out : list line)
    (cats : buckets) :
  categorize_patrons c ps = (c', out, Ok cats) ->
  out = flat_map (warning_of (fst (datetime_now c))) ps /\
  (length out <= length ps)%nat.
Proof.
  intros H. apply categorize_patrons_Ok in H as (raw & F & _ & _).
  apply for_patron_three in F as [-> _]. split; [reflexivity|].
  induction ps as [|p ps IH]; [simpl; lia|].
  cbn [flat_map length]. rewrite length_app.
  assert (L : (length (warning_of (fst (datetime_now c)) p) <= 1)%nat).
  { unfold warning_of. destruct (tier_of _) as [[days k]|]; simpl; [|lia].
    destruct (Str.is_empty _); simpl; [lia|].
    destruct (is_eligible _ _ _) as [b|e]; simpl; [lia|].
    destruct (is_ValueError_or_TypeError e); simpl; lia. }
  lia.
Qed.

Lemma warnings_follow_input_witness :
  categorize_patrons (Sample.clock_at Sample.noon) Sample.batch
  = (Sample.read_once, Sample.batch_out, Ok Sample.batch_buckets) /\
  Sample.batch_out
  = flat_map (warning_of (fst (datetime_now (Sample.clock_at Sample.noon))))
      Sample.batch.
Proof.
  split; [reflexivity|].
  exact (proj1 (warnings_follow_input (Sample.clock_at Sample.noon)
                  Sample.read_once Sample.batch Sample.batch_out
                  Sample.batch_buckets eq_refl)).
Defined.

Lemma categorize_patrons_extended (c c' : clock) (ps : list patron) (out : list line)
    (cats : buckets) :
  categorize_patrons c ps = (c', out, Ok cats) ->
  out = flat_map (warning_of (fst (datetime_now c))) ps /\
  cats = sort_buckets (extended (fst (datetime_now c)) [] [] [] ps).
Proof.
  intros H. apply categorize_patrons_Ok in H as (raw & F & -> & _).
  apply for_patron_three in F as [-> ->]. auto.
Qed.

(** ** Ties in the sort *)

Lemma string_leb_refl (s : string) : String.leb s s = true.
Proof. destruct (String.leb_total s s); assumption. Qed.

Lemma insert_by_key_same_key (s : string) (p : patron) (l : list patron) :
  List.filter (fun x => String.eqb (sort_key x) s) (insert_by_key p l)
  = List.filter (fun x => String.eqb (sort_key x) s) (p :: l).
Proof.
  induction l as [|q l IH]; [reflexivity|].
  cbn [insert_by_key].
  destruct (String.leb (sort_key p) (sort_key q)) eqn:L; [reflexivity|].
  cbn [List.filter] in IH |- *. rewrite IH.
  destruct (String.eqb_spec (sort_key p) s) as [Ep|Ep];
    destruct (String.eqb_spec (sort_key q) s) as [Eq|Eq]; try reflexivity.
  rewrite Ep, Eq, string_leb_refl in L. discriminate.
Qed.

Lemma sort_by_key_same_key (s : string) (l : list patron) :
  List.filter (fun x => String.eqb (sort_key x) s) (sort_by_key l)
  = List.filter (fun x => String.eqb (sort_key x) s) l.
Proof.
  induction l as [|p l IH]; [reflexivity|].
  cbn [sort_by_key fold_right]. fold (sort_by_key l).
  rewrite insert_by_key_same_key. cbn [List.filter]. rewrite IH. reflexivity.
Qed.

(** X3: the sort of line 161 is stable: in every bucket, the patrons
    whose display names are equal without regard to case stand in the
    order in which the input has them. *)
Theorem ties_keep_input_order (c c' : clock) (ps : list patron) (out : list line)
    (cats : buckets) :
  categorize_patrons c ps = (c', out, Ok cats) ->
  forall k bucket name,
    In (k, bucket) cats ->
    List.filter (fun p => String.eqb (Str.lower (displayed_name p)) name) bucket
    = List.filter (fun p => String.eqb (Str.lower (displayed_name p)) name)
        (List.filter (in_bucket (fst (datetime_now c)) k) ps).
Proof.
  intros H k bucket name Hb.
  apply categorize_patrons_extended in H as [_ ->].
  destruct Hb as [E|[E|[E|[]]]]; inversion E; subst;
    exact (sort_by_key_same_key name _).
Qed.

Lemma ties_keep_input_order_witness :
  categorize_patrons (Sample.clock_at Sample.noon)
    [Sample.bob; Sample.Bob; Sample.alfred; Sample.BOB]
  = (Sample.read_once, [],
     Ok [("one_month", [Sample.alfred; Sample.bob; Sample.Bob; Sample.BOB]);
         ("six_months", []); ("one_year", [])]) /\
  List.filter (fun p => String.eqb (Str.lower (displayed_name p)) "bob")
    [Sample.alfred; Sample.bob; Sample.Bob; Sample.BOB]
  = List.filter (fun p => String.eqb (Str.lower (displayed_name p)) "bob")
      (List.filter (in_bucket (fst (datetime_now (Sample.clock_at Sample.noon)))
                      "one_month")
         [Sample.bob; Sample.Bob; Sample.alfred; Sample.BOB]).
Proof.
  split; [reflexivity|].
  exact (ties_keep_input_order (Sample.clock_at Sample.noon) Sample.read_once
           [Sample.bob; Sample.Bob; Sample.alfred; Sample.BOB] []
           [("one_month", [Sample.alfred; Sample.bob; Sample.Bob; Sample.BOB]);
            ("six_months", []); ("one_year", [])]
           eq_refl "one_month" [Sample.alfred; Sample.bob; Sample.Bob; Sample.BOB]
           "bob" (or_introl eq_refl)).
Defined.

(** ** The timestamp column, further *)

(** X4: formatting a timestamp twice is formatting it once: what
    [write_csv] writes, [write_csv] writes back unchanged. *)
Theorem format_timestamp_idempotent (ts : string) :
  format_timestamp (format_timestamp ts) = format_timestamp ts.
Proof.
  assert (C : format_timestamp ts = ts \/
              exists dt, format_timestamp ts = datetime.strftime_ymd dt).
  { unfold format_timestamp.
    destruct (Str.contains "T" ts); [|left; reflexivity].
    destruct (datetime.fromisoformat _) as [dt|]; [right; exists dt|left];
      reflexivity. }
  destruct C as [E|(dt & E)]; rewrite E; [exact E|].
  unfold format_timestamp.
  rewrite (bare_date_no_T _ (strftime_ymd_bare dt)). reflexivity.
Qed.















(** ** The records of a page *)

Lemma included_users_step (included : list Api.resource) :
  forall (users : gmap string Api.resource) (k : string),
    (forall u, In u included -> Api.resource_type u = "user" ->
               Api.resource_id u <> k) ->
    fold_left
      (fun users user =>
         if String.eqb (Api.resource_type user) "user"
         then <[Api.resource_id user := user]> users else users)
      included users !! k
    = users !! k.
Proof.
  induction included as [|u l IH]; intros users k H; [reflexivity|].
  cbn [fold_left]. rewrite IH by (intros u' Hu'; apply H; right; exact Hu').
  destruct (String.eqb_spec (Api.resource_type u) "user") as [E|E]; [|reflexivity].
  apply lookup_insert_ne. apply H; [left; reflexivity|exact E].
Qed.

Lemma included_users_last (l1 l2 : list Api.resource) (u : Api.resource) :
  Api.resource_type u = "user" ->
  (forall u', In u' l2 -> Api.resource_type u' = "user" ->
              Api.resource_id u' <> Api.resource_id u) ->
  included_users (l1 ++ u :: l2) !! Api.resource_id u = Some u.
Proof.
  intros T H. unfold included_users. rewrite fold_left_app. cbn [fold_left].
  rewrite included_users_step by exact H.
  rewrite T. change (String.eqb "user" "user") with true. cbv iota.
  apply lookup_insert_eq.
Qed.

Lemma included_users_none (included : list Api.resource) (k : string) :
  (forall u, In u included -> Api.resource_type u = "user" ->
             Api.resource_id u <> k) ->
  included_users included !! k = None.
Proof.
  intros H. unfold included_users. rewrite included_users_step by exact H.
  apply lookup_empty.
Qed.

(** X6: the display name of a member is the full name in the last
    record of type user, among those the page includes, whose id is the
    member's user id, and ["Anonymous"] when that record has no
    attributes or no full name, or when the page includes no such
    record; records of another type do not count. *)
Theorem display_name_lookup (included : list Api.resource) (member : Api.member) :
  (forall l1 u l2,
     included = l1 ++ u :: l2 ->
     Api.resource_type u = "user" ->
     Api.resource_id u = Api.user_id member ->
     (forall u', In u' l2 -> Api.resource_type u' = "user" ->
                 Api.resource_id u' <> Api.user_id member) ->
     displayed_name (patron_info (included_users included) member)
     = match Api.resource_attributes u with
       | Some a => default "Anonymous" (Api.full_name a)
       | None => "Anonymous"
       end) /\
  ((forall u, In u included -> Api.resource_type u = "user" ->
              Api.resource_id u <> Api.user_id member) ->
   displayed_name (patron_info (included_users included) member) = "Anonymous").
Proof.
  split.
  - intros l1 u l2 -> T I H. unfold patron_info. cbn [displayed_name].
    rewrite <- I in H |- *. rewrite (included_users_last l1 l2 u T H). reflexivity.
  - intros H. unfold patron_info. cbn [displayed_name].
    rewrite (included_users_none _ _ H). reflexivity.
Qed.

Lemma display_name_lookup_witness :
  displayed_name
    (patron_info (included_users [Sample.stale_user; Sample.bob_user; Sample.campaign])
       Sample.bob_member) = "bob" /\
  displayed_name
    (patron_info (included_users [Sample.stale_user; Sample.bob_user; Sample.campaign])
       Sample.nameless_member) = "Anonymous".
Proof.
  split.
  - refine (proj1 (display_name_lookup
                     [Sample.stale_user; Sample.bob_user; Sample.campaign]
                     Sample.bob_member)
              [Sample.stale_user] Sample.bob_user [Sample.campaign]
              eq_refl eq_refl eq_refl _).
    intros u' [<-|[]] T. discriminate T.
  - refine (proj2 (display_name_lookup
                     [Sample.stale_user; Sample.bob_user; Sample.campaign]
                     Sample.nameless_member) _).
    intros u [<-|[<-|[<-|[]]]] T; discriminate.
Defined.

(** ** What the fetch returns *)

Lemma follows_served (get : service) (token : string) (url url' : pystr)
    (params params' : bool) (pages : list Api.page) :
  follows get token url params pages url' params' ->
  forall data, In data pages ->
    exists u p, get (request_of token u p) = Ok data.
Proof.
  induction 1 as [url params|url params data pages url' params' T G F IH];
    intros d Hd; [destruct Hd|].
  destruct Hd as [<-|Hd]; [exists url, params; exact G|exact (IH d Hd)].
Qed.

Lemma page_patrons_In (data : Api.page) (p : patron) :
  In p (page_patrons data) ->
  exists member,
    In member (Api.data data) /\
    Api.patron_status member = PyStr "active_patron" /\
    p = patron_info (included_users (Api.included data)) member.
Proof.
  unfold page_patrons. intros H. apply in_map_iff in H as (m & <- & Hm).
  apply list_elem_of_In, list_elem_of_filter in Hm as [A Hm].
  exists m. split; [apply list_elem_of_In; exact Hm|]. split; [|reflexivity].
  unfold is_active in A. destruct (Api.patron_status m) as [|s]; [destruct A|].
  apply Is_true_true, String.eqb_eq in A. subst. reflexivity.
Qed.

(** X7: every patron that the fetch returns stands for a member of a
    page the service answered with, whose status is [active_patron]: it
    has the id of that member, the last charge date or the empty string,
    the entitled amount or 0, and the display name looked up among the
    records of that same page. *)
Theorem fetched_patrons_are_active (fuel : nat) (get : service)
    (PATREON_ACCESS_TOKEN CAMPAIGN_ID : pystr) (out : list line)
    (patrons : list patron) :
  get_patrons fuel get PATREON_ACCESS_TOKEN CAMPAIGN_ID = Some (out, Ok patrons) ->
  forall p, In p patrons ->
    exists r data member,
      get r = Ok data /\
      In member (Api.data data) /\
      Api.patron_status member = PyStr "active_patron" /\
      member_id p = Api.id member /\
      last_payment_timestamp p = default "" (Api.last_charge_date member) /\
      pledge_amount_cents p = default 0 (Api.currently_entitled_amount_cents member) /\
      displayed_name p
      = displayed_name (patron_info (included_users (Api.included data)) member).
Proof.
  unfold get_patrons.
  destruct (truthy PATREON_ACCESS_TOKEN);
    [|intros H; inversion H; subst; intros p []].
  destruct (truthy CAMPAIGN_ID); [|intros H; inversion H; subst; intros p []].
  cbn [negb].
  destruct (while_url fuel get _ _ true []) as [r|] eqn:W; [|discriminate].
  apply while_url_inv in W as (pages & url' & params' & F & C).
  destruct C as [(_ & ->)|(_ & e & _ & ->)].
  - intros H; inversion H; subst. intros p Hp. cbn [app] in Hp.
    apply in_concat in Hp as (l & Hl & Hp).
    apply in_map_iff in Hl as (data & <- & Hd).
    destruct (follows_served _ _ _ _ _ _ _ F data Hd) as (u & q & G).
    apply page_patrons_In in Hp as (m & Hm & A & ->).
    exists (request_of (format PATREON_ACCESS_TOKEN) u q), data, m.
    repeat split; assumption.
  - destruct (is_RequestException e); intros H; inversion H; subst.
    intros p [].
Qed.

Lemma fetched_patrons_are_active_witness :
  get_patrons 1 Sample.mixed (PyStr "token") (PyStr "42")
  = Some ([FetchedPatrons 2],
          Ok [Sample.bob; mk_patron "m21" "Anonymous" "" 0]) /\
  exists r data member,
    Sample.mixed r = Ok data /\
    In member (Api.data data) /\
    Api.patron_status member = PyStr "active_patron" /\
    member_id Sample.bob = Api.id member /\
    last_payment_timestamp Sample.bob = default "" (Api.last_charge_date member) /\
    pledge_amount_cents Sample.bob
    = default 0 (Api.currently_entitled_amount_cents member) /\
    displayed_name Sample.bob
    = displayed_name (patron_info (included_users (Api.included data)) member).
Proof.
  split; [reflexivity|].
  exact (fetched_patrons_are_active 1 Sample.mixed (PyStr "token") (PyStr "42")
           [FetchedPatrons 2] [Sample.bob; mk_patron "m21" "Anonymous" "" 0]
           eq_refl Sample.bob (or_introl eq_refl)).
Defined.

(** ** The requests *)

Lemma while_url_agree (fuel : nat) (get get' : service) (token first : string) :
  (forall r, authorization r = ("Bearer " ++ token)%string ->
             (with_params r = true -> url r = first) -> get r = get' r) ->
  forall url params acc,
    (params = true -> format url = first) ->
    while_url fuel get token url params acc
    = while_url fuel get' token url params acc.
Proof.
  intros A. induction fuel as [|fuel IH]; intros u params acc P; [reflexivity|].
  cbn [while_url]. destruct (negb (truthy u)); [reflexivity|].
  rewrite <- (A {| url := format u;
                   authorization := ("Bearer " ++ token)%string;
                   with_params := params |} eq_refl P).
  destruct (get _) as [data|e]; [|reflexivity].
  apply IH. discriminate.
Qed.

(** X8: the fetch sends no request without the bearer token, and
    sends the query parameters to the members URL of the campaign only:
    a service that differs on other requests gives the same result. *)
Theorem requests_carry_token (fuel : nat) (get get' : service)
    (PATREON_ACCESS_TOKEN CAMPAIGN_ID : pystr) :
  (forall r,
     authorization r = ("Bearer " ++ format PATREON_ACCESS_TOKEN)%string ->
     (with_params r = true -> url r = members_url CAMPAIGN_ID) ->
     get r = get' r) ->
  get_patrons fuel get PATREON_ACCESS_TOKEN CAMPAIGN_ID
  = get_patrons fuel get' PATREON_ACCESS_TOKEN CAMPAIGN_ID.
Proof.
  intros A. unfold get_patrons.
  destruct (negb (truthy PATREON_ACCESS_TOKEN)); [reflexivity|].
  destruct (negb (truthy CAMPAIGN_ID)); [reflexivity|].
  rewrite (while_url_agree fuel get get' _ _ A); [reflexivity|].
  intros _; reflexivity.
Qed.

Lemma requests_carry_token_witness :
  (forall r,
     authorization r = ("Bearer " ++ format (PyStr "token"))%string ->
     (with_params r = true -> url r = members_url (PyStr "42")) ->
     Sample.steady r = Sample.guarded r) /\
  get_patrons 1 Sample.steady (PyStr "token") (PyStr "42")
  = get_patrons 1 Sample.guarded (PyStr "token") (PyStr "42").
Proof.
  assert (A : forall r,
             authorization r = ("Bearer " ++ format (PyStr "token"))%string ->
             (with_params r = true -> url r = members_url (PyStr "42")) ->
             Sample.steady r = Sample.guarded r).
  { intros r E _. unfold Sample.guarded. rewrite E. reflexivity. }
  split; [exact A|].
  exact (requests_carry_token 1 Sample.steady Sample.guarded (PyStr "token")
           (PyStr "42") A).
Defined.

(** X9: only a [RequestException] is caught.  With both credentials
    set, any other exception at any page leaves [get_patrons] as it is:
    nothing is printed and no list is returned. *)
Theorem other_exceptions_escape (get : service)
    (PATREON_ACCESS_TOKEN CAMPAIGN_ID : pystr) (pages : list Api.page)
    (url' : pystr) (params' : bool) (e : exn) (fuel : nat) :
  truthy PATREON_ACCESS_TOKEN = true ->
  truthy CAMPAIGN_ID = true ->
  follows get (format PATREON_ACCESS_TOKEN) (PyStr (members_url CAMPAIGN_ID)) true
    pages url' params' ->
  truthy url' = true ->
  get (request_of (format PATREON_ACCESS_TOKEN) url' params') = Raise e ->
  is_RequestException e = false ->
  (length pages < fuel)%nat ->
  get_patrons fuel get PATREON_ACCESS_TOKEN CAMPAIGN_ID = Some ([], Raise e).
Proof.
  intros Tt Tc F T' G R L. unfold get_patrons. rewrite Tt, Tc. cbn [negb].
  rewrite (follows_raise _ _ _ _ _ _ _ _ F T' G fuel [] L). rewrite R. reflexivity.
Qed.

Lemma other_exceptions_escape_witness :
  get_patrons 2 Sample.broken (PyStr "token") (PyStr "42")
  = Some ([], Raise (KeyError "attributes")).
Proof.
  refine (other_exceptions_escape Sample.broken (PyStr "token") (PyStr "42")
            [Sample.first_page] (PyStr "https://www.patreon.com/api/oauth2/v2/page2")
            false (KeyError "attributes") 2 eq_refl eq_refl _ eq_refl eq_refl eq_refl
            (le_n 2)).
  apply follows_cons with (data := Sample.first_page);
    [reflexivity|reflexivity|apply follows_nil].
Defined.

(** ** The run as a whole *)

Lemma emitted_frame (b1 b2 b3 : list patron) (fs : gmap string file) (path : string) :
  path <> json_path ->
  (forall k p, In (k, p) files -> path <> p) ->
  emitted b1 b2 b3 fs !! path = fs !! path.
Proof.
  intros J F. unfold emitted.
  rewrite lookup_insert_ne by congruence.
  rewrite lookup_insert_ne
    by (intros E; apply (F "one_year" _ ltac:(simpl; auto)); symmetry; exact E).
  rewrite lookup_insert_ne
    by (intros E; apply (F "six_months" _ ltac:(simpl; auto)); symmetry; exact E).
  rewrite lookup_insert_ne
    by (intros E; apply (F "one_month" _ ltac:(simpl; auto)); symmetry; exact E).
  reflexivity.
Qed.

(** What a run that returns normally has done to the files. *)
Lemma main_Ok (fuel : nat) (w w' : world) :
  main fuel w = Some (Ok tt, w') ->
  (exists w1, fetch fuel w = Some (Ok [], w1) /\
              fs w' = <[json_path := Json []]> (fs w)) \/
  exists patrons w1 c out b1 b2 b3,
    fetch fuel w = Some (Ok patrons, w1) /\ patrons <> [] /\
    categorize_patrons (wall_clock w) patrons
    = (c, out, Ok [("one_month", b1); ("six_months", b2); ("one_year", b3)]) /\
    fs w' = emitted b1 b2 b3 (fs w).
Proof.
  intros H. unfold main in H.
  destruct (fetch fuel w) as [[[ps|e] w1]|] eqn:F; [| |discriminate].
  - destruct (fetch_fs _ _ _ _ F) as [Hf Hc].
    destruct ps as [|p ps].
    + inversion H; subst. left. exists w1. split; [reflexivity|].
      cbn [fs print with_fs]. rewrite Hf. reflexivity.
    + right. inversion H as [E]. clear H.
      destruct (categorize_patrons (wall_clock w1) (p :: ps)) as [[c out] [cats|e]] eqn:C.
      * destruct (emit_Ok _ _ _ _ _ C) as (b1 & b2 & b3 & w2 & -> & He & Hfs & _).
        rewrite He in E. inversion E; subst.
        exists (p :: ps), w1, c, out, b1, b2, b3.
        rewrite <- Hc, <- Hf. repeat split; try assumption. discriminate.
      * destruct (emit_Raise _ _ _ _ _ C) as (w2 & He & _).
        rewrite He in E. discriminate.
  - inversion H.
Qed.

(** X10: a run that returns normally leaves [patrons.json] holding a
    list, has changed no path but the four output files, and has written
    the three CSV files all, each with the header first, or none. *)
Theorem main_touches_only_outputs (fuel : nat) (w w' : world) :
  main fuel w = Some (Ok tt, w') ->
  (exists entries, fs w' !! json_path = Some (Json entries)) /\
  (forall path, path <> json_path ->
     (forall k p, In (k, p) files -> path <> p) ->
     fs w' !! path = fs w !! path) /\
  ((forall k p, In (k, p) files -> fs w' !! p = fs w !! p) \/
   (forall k p, In (k, p) files ->
      exists rows, fs w' !! p = Some (Csv (fieldnames :: rows)))).
Proof.
  intros H.
  destruct (main_Ok _ _ _ H)
    as [(w1 & _ & E)|(ps & w1 & c & out & b1 & b2 & b3 & _ & _ & _ & E)]; rewrite E.
  - split; [exists []; apply lookup_insert_eq|]. split.
    + intros path J _. apply lookup_insert_ne. congruence.
    + left. intros k p Hk. apply lookup_insert_ne.
      apply files_cases in Hk as [ [_ ->] | [ [_ ->] | [_ ->] ] ]; discriminate.
  - destruct (emitted_lookup b1 b2 b3 (fs w)) as (L1 & L2 & L3 & L4).
    split; [exists (entries_of b1 b2 b3); exact L4|]. split.
    + intros path J F. exact (emitted_frame _ _ _ _ _ J F).
    + right. intros k p Hk.
      apply files_cases in Hk as [ [_ ->] | [ [_ ->] | [_ ->] ] ];
        eexists; eassumption.
Qed.

Lemma main_touches_only_outputs_witness :
  main 1 Sample.live
  = Some (Ok tt,
          {| environ := Sample.credentials; dotenv := fun _ => Missing;
             remote := Sample.steady; wall_clock := Sample.read_once;
             fs := emitted [Sample.bob] [] [] ∅;
             stdout := [Fetching; FetchedPatrons 1; Categorizing;
                        UpdatedCsv "_data/one_month_mentions.csv" 1;
                        UpdatedCsv "_data/six_months_mentions.csv" 0;
                        UpdatedCsv "_data/one_year_mentions.csv" 0;
                        GeneratedJson "_data/patrons.json" 1; AllUpdated;
                        CountOneYear 0; CountSixMonths 0; CountOneMonth 1] |}) /\
  (forall path, path <> json_path ->
     (forall k p, In (k, p) files -> path <> p) ->
     emitted [Sample.bob] [] [] ∅ !! path = fs Sample.live !! path).
Proof.
  split; [reflexivity|].
  exact (proj1 (proj2 (main_touches_only_outputs 1 Sample.live _ eq_refl))).
Defined.

(** X12: end to end, a run that fetches some patrons and returns
    normally writes, for each tier, the fetched patrons that belong to its
    bucket at the one reading of the clock, sorted by the key of line
    161: their rows to the CSV file of the tier and, the tiers in the
    order one month, six months, one year, their entries to
    [patrons.json]. *)
Theorem main_end_to_end (fuel : nat) (w w1 w' : world) (patrons : list patron) :
  fetch fuel w = Some (Ok patrons, w1) ->
  patrons <> [] ->
  main fuel w = Some (Ok tt, w') ->
  fs w'
  = emitted
      (sort_by_key (List.filter (in_bucket (fst (datetime_now (wall_clock w)))
                                   "one_month") patrons))
      (sort_by_key (List.filter (in_bucket (fst (datetime_now (wall_clock w)))
                                   "six_months") patrons))
      (sort_by_key (List.filter (in_bucket (fst (datetime_now (wall_clock w)))
                                   "one_year") patrons))
      (fs w).
Proof.
  intros F N H.
  destruct (main_Ok _ _ _ H)
    as [(w2 & F' & _)|(ps & w2 & c & out & b1 & b2 & b3 & F' & _ & C & E)].
  - rewrite F in F'. inversion F'; subst. contradiction.
  - rewrite F in F'. inversion F'; subst.
    pose proof (categorize_patrons_extended _ _ _ _ _ C) as [_ X].
    inversion X; subst. exact E.
Qed.

Lemma main_end_to_end_witness :
  fetch 1 Sample.live = Some (Ok [Sample.bob], print [Fetching; FetchedPatrons 1] Sample.live) /\
  [Sample.bob] <> [] /\
  exists w',
    main 1 Sample.live = Some (Ok tt, w') /\
    fs w' = emitted [Sample.bob] [] [] (fs Sample.live).
Proof.
  split; [reflexivity|]. split; [discriminate|].
  eexists. split; [reflexivity|].
  exact (main_end_to_end 1 Sample.live (print [Fetching; FetchedPatrons 1] Sample.live)
           _ [Sample.bob] eq_refl ltac:(discriminate) eq_refl).
Defined.

Lemma get_patrons_no_credentials (fuel : nat) (get : service) (token campaign_id : pystr) :
  truthy token = false \/ truthy campaign_id = false ->
  get_patrons fuel get token campaign_id
  = Some ([if truthy token then ErrorCampaignNotSet else ErrorTokenNotSet], Ok []).
Proof.
  unfold get_patrons. intros [T|T]; rewrite T.
  - reflexivity.
  - destruct (truthy token); reflexivity.
Qed.

(** X13: when the environment lacks the token or the campaign id and
    the configuration file cannot supply it (it is missing, or it does
    not parse), the run sends no request, whatever the service and the
    number of iterations allowed: it reports the first credential that is
    not set, the token before the campaign id, writes the empty
    [patrons.json] and returns normally. *)
Theorem no_credentials_no_request (fuel : nat) (w : world) :
  truthy (environ_get (environ w) "PATREON_ACCESS_TOKEN") = false \/
  truthy (environ_get (environ w) "PATREON_CAMPAIGN_ID") = false ->
  (forall config, dotenv w CONFIG_FILE <> Values config) ->
  exists warning w',
    main fuel w = Some (Ok tt, w') /\
    fs w' = <[json_path := Json []]> (fs w) /\
    stdout w'
    = stdout w ++ warning ++
      [Fetching;
       if truthy (environ_get (environ w) "PATREON_ACCESS_TOKEN")
       then ErrorCampaignNotSet else ErrorTokenNotSet;
       NoPatronsFound; GeneratedEmpty json_path] /\
    (dotenv w CONFIG_FILE = Missing -> warning = []) /\
    (forall e, dotenv w CONFIG_FILE = Unreadable e ->
               warning = [WarnConfig CONFIG_FILE e]).
Proof.
  intros T N. unfold main, fetch.
  destruct (load_config (environ w) (dotenv w) CONFIG_FILE) as [o [t cid]] eqn:L.
  destruct (load_config_values _ _ _ _ _ _ L) as (_ & _ & V).
  destruct (V N) as [-> ->].
  cbn [remote print]. rewrite (get_patrons_no_credentials _ _ _ _ T).
  exists o. eexists. split; [reflexivity|]. cbn [fs stdout print with_fs].
  split; [reflexivity|]. split.
  - rewrite <- !app_assoc. reflexivity.
  - split.
    + intros X. rewrite (load_config_Missing _ _ _ X) in L. congruence.
    + intros e X. rewrite (load_config_Unreadable _ _ _ _ X) in L.
      destruct T as [T|T]; rewrite T, ?andb_false_r in L; cbn [andb] in L;
        congruence.
Qed.

Lemma no_credentials_no_request_witness :
  (truthy (environ_get (environ Sample.bare) "PATREON_ACCESS_TOKEN") = false \/
   truthy (environ_get (environ Sample.bare) "PATREON_CAMPAIGN_ID") = false) /\
  (forall config, dotenv Sample.bare CONFIG_FILE <> Values config) /\
  exists warning w',
    main 0 Sample.bare = Some (Ok tt, w') /\
    fs w' = <[json_path := Json []]> (fs Sample.bare) /\
    stdout w'
    = stdout Sample.bare ++ warning ++
      [Fetching; ErrorTokenNotSet; NoPatronsFound; GeneratedEmpty json_path] /\
    (dotenv Sample.bare CONFIG_FILE = Missing -> warning = []) /\
    (forall e, dotenv Sample.bare CONFIG_FILE = Unreadable e ->
               warning = [WarnConfig CONFIG_FILE e]).
Proof.
  split; [left; reflexivity|]. split; [discriminate|].
  exact (no_credentials_no_request 0 Sample.bare (or_introl eq_refl)
           ltac:(discriminate)).
Defined.

(** X14: on an input in which no timestamp plus its window passes the
    last date, the empty input among them, the classification returns: it
    reads the clock once, and the mapping has the keys one_month,
    six_months and one_year, in this order, with buckets that hold
    patrons of the input only. *)
Theorem classification_returns_without_overflow (c : clock) (ps : list patron) :
  (forall p days k charge_date,
     In p ps -> tier_of (pledge_amount_cents p) = Some (days, k) ->
     parse_charge_date (last_payment_timestamp p) = Ok charge_date ->
     datetime.add_days charge_date days <> Raise OverflowError) ->
  exists out cats,
    categorize_patrons c ps = (snd (datetime_now c), out, Ok cats) /\
    keys cats = ["one_month"; "six_months"; "one_year"]%string /\
    forall k bucket p, In (k, bucket) cats -> In p bucket -> In p ps.
Proof.
  intros H. destruct (categorize_patrons_returns c ps H) as (out & cats & E).
  exists out, cats. split; [exact E|]. exact (categorize_patrons_shape _ _ _ _ _ E).
Qed.

Lemma classification_returns_without_overflow_witness :
  (forall p days k charge_date,
     In p [Sample.bob; Sample.eve] ->
     tier_of (pledge_amount_cents p) = Some (days, k) ->
     parse_charge_date (last_payment_timestamp p) = Ok charge_date ->
     datetime.add_days charge_date days <> Raise OverflowError) /\
  exists out cats,
    categorize_patrons (Sample.clock_at Sample.noon) [Sample.bob; Sample.eve]
    = (Sample.read_once, out, Ok cats) /\
    keys cats = ["one_month"; "six_months"; "one_year"]%string /\
    forall k bucket p, In (k, bucket) cats -> In p bucket ->
                       In p [Sample.bob; Sample.eve].
Proof.
  assert (H : forall p days k charge_date,
             In p [Sample.bob; Sample.eve] ->
             tier_of (pledge_amount_cents p) = Some (days, k) ->
             parse_charge_date (last_payment_timestamp p) = Ok charge_date ->
             datetime.add_days charge_date days <> Raise OverflowError).
  { intros p days k cd [<-|[<-|[]]] T P.
    - vm_compute in T, P. inversion T; subst. inversion P; subst.
      vm_compute. discriminate.
    - vm_compute in T. discriminate T. }
  split; [exact H|].
  exact (classification_returns_without_overflow (Sample.clock_at Sample.noon)
           [Sample.bob; Sample.eve] H).
Defined.
